(** * telegram_downloader.py: a shallow embedding and its verified properties

    The program is a command-line driver around a Telegram client library.
    The library, the file system and the terminal are the program's world;
    they are modelled by an explicit [World] that the program's operations
    thread through a small state-and-exception monad.  The client library
    itself is not part of the program: its answers are the fields of a
    [Client] record, and every call made to it is logged in the world. *)

From Stdlib Require Import ZArith Ascii String DecimalString.
From stdpp Require Import gmap strings list.

Local Open Scope Z_scope.
Local Open Scope string_scope.

(** ** Python strings

    A [str] is modelled by the string of the bytes of its UTF-8 encoding, on
    which [in], emptiness and concatenation are those of the [str].
    [str.lower] is modelled on the ASCII letters and on the Greek letters
    [Α]..[Ω]: a capital letter becomes its small letter, and a capital sigma
    becomes the final sigma [ς] when a cased letter comes before it and none
    comes after it, the characters the rule ignores being skipped on both
    sides, and [σ] otherwise.  Every other character is left as it is. *)

Module PyStr.

Definition lower_ascii (c : ascii) : ascii :=
  let n := N_of_ascii c in
  if ((65 <=? n) && (n <=? 90))%N then ascii_of_N (n + 32) else c.

Definition byte_in (lo hi : N) (c : ascii) : bool :=
  ((lo <=? N_of_ascii c) && (N_of_ascii c <=? hi))%N.

Definition byte_is (n : N) (c : ascii) : bool := (N_of_ascii c =? n)%N.

(** The cased characters of ASCII: the letters. *)
Definition cased_ascii (c : ascii) : bool := byte_in 65 90 c || byte_in 97 122 c.

(** The case-ignorable characters of ASCII: [' . : ^ `]. *)
Definition case_ignorable_ascii (c : ascii) : bool :=
  byte_is 39 c || byte_is 46 c || byte_is 58 c || byte_is 94 c || byte_is 96 c.

(** The Greek letters, by the second byte of their encoding: after [0xCE]
    the capitals [Α]..[Ω] ([0x91]..[0xA9], [0xA2] is no letter) and the small
    [α]..[ο] ([0xB1]..[0xBF]); after [0xCF] the small [π]..[ω] ([0x80]..[0x89]). *)
Definition greek_capital (b : ascii) : bool :=
  byte_in 145 169 b && negb (byte_is 162 b).

Definition greek_small_CE (b : ascii) : bool := byte_in 177 191 b.

Definition greek_small_CF (b : ascii) : bool := byte_in 128 137 b.

(** Whether a cased letter follows, the case-ignorable characters skipped. *)
Fixpoint followed_by_cased (s : string) : bool :=
  match s with
  | EmptyString => false
  | String c rest =>
      if byte_is 206 c then
        match rest with
        | String b _ => greek_capital b || greek_small_CE b
        | EmptyString => false
        end
      else if byte_is 207 c then
        match rest with
        | String b _ => greek_small_CF b
        | EmptyString => false
        end
      else if case_ignorable_ascii c then followed_by_cased rest
      else cased_ascii c
  end.

(** [s.lower()], read from left to right; [before] tells whether the last
    character read that is not case-ignorable is a cased letter. *)
Fixpoint lower_from (before : bool) (s : string) : string :=
  match s with
  | EmptyString => EmptyString
  | String c rest =>
      if byte_is 206 c then
        match rest with
        | String b rest' =>
            if byte_is 163 b then
              (if before && negb (followed_by_cased rest') then "ς" else "σ")
              ++ lower_from true rest'
            else if byte_in 145 159 b then
              String c (String (ascii_of_N (N_of_ascii b + 32)) (lower_from true rest'))
            else if greek_capital b then
              String (ascii_of_N 207)
                (String (ascii_of_N (N_of_ascii b - 32)) (lower_from true rest'))
            else
              String c (String b (lower_from (greek_small_CE b) rest'))
        | EmptyString => String c EmptyString
        end
      else if byte_is 207 c then
        match rest with
        | String b rest' => String c (String b (lower_from (greek_small_CF b) rest'))
        | EmptyString => String c EmptyString
        end
      else
        String (lower_ascii c)
          (lower_from (if case_ignorable_ascii c then before else cased_ascii c) rest)
  end.

Definition lower (s : string) : string := lower_from false s.

(** [s.startswith(p)] *)
Fixpoint startswith (p s : string) : bool :=
  match p, s with
  | EmptyString, _ => true
  | String a p', String b s' => Ascii.eqb a b && startswith p' s'
  | String _ _, EmptyString => false
  end.

(** [needle in hay], Python's substring test. *)
Fixpoint contains (needle hay : string) : bool :=
  startswith needle hay ||
  match hay with
  | EmptyString => false
  | String _ hay' => contains needle hay'
  end.

(** Truthiness of a [str]: non-empty. *)
Definition truthy (s : string) : bool :=
  match s with EmptyString => false | String _ _ => true end.

(** Truthiness of an [Optional[str]]: neither [None] nor empty. *)
Definition opt_truthy (o : option string) : bool :=
  match o with Some s => truthy s | None => false end.

(** [str(n)] for an [int]. *)
Definition of_int (n : Z) : string := NilEmpty.string_of_int (Z.to_int n).

(** [f"{s:<w}"]: left-justify in a field of [w] characters. *)
Fixpoint spaces (n : nat) : string :=
  match n with O => "" | S n' => String " " (spaces n') end.

Definition ljust (w : nat) (s : string) : string :=
  s +:+ spaces (w - String.length s).

(** [s * n] for a one-character string, as in ["-" * 60]. *)
Fixpoint repeat_char (c : ascii) (n : nat) : string :=
  match n with O => "" | S n' => String c (repeat_char c n') end.

Definition newline : string := String (ascii_of_N 10) "".

End PyStr.

(** ** The URL pattern of [download_media]

    [re.findall(r'http[s]?://(?:[a-zA-Z]|[0-9]|[$-_@.&+]|[!*\\(\\),]|(?:%[0-9a-fA-F][0-9a-fA-F]))+', text)]

    The pattern has no capturing group, so [findall] returns the whole
    matches, left to right and without overlap.  Nothing follows the final
    [+], hence the greedy repetition never has to give characters back: a
    match is the scheme prefix followed by as many repetitions of the group
    as the text allows, at least one. *)

Module UrlPattern.

Definition code (c : ascii) : N := N_of_ascii c.

Definition between (lo hi : N) (c : ascii) : bool :=
  ((lo <=? code c) && (code c <=? hi))%N.

(** [[a-zA-Z]] *)
Definition alpha (c : ascii) : bool := between 97 122 c || between 65 90 c.

(** [[0-9]] *)
Definition digit (c : ascii) : bool := between 48 57 c.

(** [[$-_@.&+]]: the range from [$] (36) to [_] (95), then [@ . & +]. *)
Definition symbol (c : ascii) : bool :=
  between 36 95 c || Ascii.eqb c "@" || Ascii.eqb c "." || Ascii.eqb c "&"
  || Ascii.eqb c "+".

(** [[!*\\(\\),]]: in the raw string the class lists [! * \ ( \ ) ,]. *)
Definition punct (c : ascii) : bool :=
  Ascii.eqb c "!" || Ascii.eqb c "*" || Ascii.eqb c "\" || Ascii.eqb c "("
  || Ascii.eqb c ")" || Ascii.eqb c ",".

(** [[0-9a-fA-F]] *)
Definition hex (c : ascii) : bool :=
  between 48 57 c || between 97 102 c || between 65 70 c.

(** The four one-character alternatives of the group, in order. *)
Definition single (c : ascii) : bool :=
  alpha c || digit c || symbol c || punct c.

(** Greedy [(?: ... )*]: the number of characters the repetitions of the
    group take at the head of [s].  The alternatives are tried in the order
    of the pattern; the last one, [%hh], takes three characters. *)
Fixpoint group_star (s : string) : nat :=
  match s with
  | EmptyString => O
  | String c s' =>
      if single c then S (group_star s')
      else if Ascii.eqb c "%" then
        match s' with
        | String h1 (String h2 s'') =>
            if hex h1 && hex h2 then S (S (S (group_star s''))) else O
        | _ => O
        end
      else O
  end.

(** [http[s]?://]: the length of the scheme prefix at the head of [s], the
    optional [s] being tried first. *)
Definition scheme (s : string) : option nat :=
  if PyStr.startswith "https://" s then Some 8%nat
  else if PyStr.startswith "http://" s then Some 7%nat
  else None.

Fixpoint drop (n : nat) (s : string) : string :=
  match n, s with
  | O, _ => s
  | S n', String _ s' => drop n' s'
  | S _, EmptyString => EmptyString
  end.

Fixpoint take (n : nat) (s : string) : string :=
  match n, s with
  | O, _ => EmptyString
  | S n', String c s' => String c (take n' s')
  | S _, EmptyString => EmptyString
  end.

(** [pattern.match(s)]: the length of the match at the head of [s]. *)
Definition match_at (s : string) : option nat :=
  match scheme s with
  | Some k =>
      match group_star (drop k s) with
      | O => None
      | S g => Some (k + S g)%nat
      end
  | None => None
  end.

(** The scan of [findall]: [skip] is the number of characters of the
    current position still covered by the last match. *)
Fixpoint scan (skip : nat) (s : string) : list string :=
  match s with
  | EmptyString => []
  | String _ s' =>
      match skip with
      | S k => scan k s'
      | O =>
          match match_at s with
          | Some n => take n s :: scan (Nat.pred n) s'
          | None => scan O s'
          end
      end
  end.

Definition findall (text : string) : list string := scan O text.

End UrlPattern.

(** ** Data model *)

(** Exceptions, as far as the program tells them apart: [KeyboardInterrupt]
    is not an [Exception]; [SessionPasswordNeededError] is one that
    [connect] catches by name; [str(e)] is the message. *)
Inductive ExceptionClass := SessionPasswordNeededError | OtherException.

Inductive BaseException :=
| KeyboardInterrupt
| Exception (cls : ExceptionClass) (msg : string).

Inductive Result (A : Type) :=
| Ok (a : A)
| Raise (e : BaseException).
Arguments Ok {A} a.
Arguments Raise {A} e.

(** [--media-type], one of argparse's [choices]. *)
Inductive MediaType := all | photos | documents | links | gifs.

Definition media_type_str (t : MediaType) : string :=
  match t with
  | all => "all" | photos => "photos" | documents => "documents"
  | links => "links" | gifs => "gifs"
  end.

(** The server-side filters of [telethon.tl.types]. *)
Inductive MessagesFilter :=
| InputMessagesFilterPhotos
| InputMessagesFilterDocument
| InputMessagesFilterUrl
| InputMessagesFilterGif.

(** An element of [document.attributes]; only [DocumentAttributeFilename]
    has a [file_name]. *)
Inductive DocumentAttribute :=
| DocumentAttributeFilename (file_name : string)
| DocumentAttributeOther.

(** [message.media].  The [document] of a [MessageMediaDocument] is [None]
    when it is absent or carries no [attributes]; the [url] of a web page is
    [None] when the page has none. *)
Inductive MessageMedia :=
| MessageMediaPhoto
| MessageMediaDocument (document : option (list DocumentAttribute))
| MessageMediaWebPage (url : option string)
| MessageMediaOther.

(** Dates are counted in microseconds, the resolution of [datetime]. *)
Record Message := {
  msg_id : Z;
  date : Z;
  text : option string;
  media : option MessageMedia;
}.

Record Dialog := {
  dialog_id : Z;
  dialog_name : string;
  is_group : bool;
  is_channel : bool;
}.

(** What [client.download_media(message, entity_dir)] does: it saves one
    file and returns its path, returns [None], or raises. *)
Inductive DownloadOutcome :=
| Saved (path : string) (data : string)
| NoFile
| DownloadFailed (e : BaseException).

(** The calls the program makes to the client library. *)
Inductive Call :=
| CallConnect
| CallIsUserAuthorized
| CallSendCodeRequest (phone : string)
| CallSignIn (phone code : string)
| CallSignInPassword (password : string)
| CallGetDialogs
| CallGetEntity (entity_id : Z)
| CallGetMessages (entity_id : Z) (limit : option Z) (offset_date : option Z)
    (filter : option MessagesFilter)
| CallDownloadMedia (message : Message) (dir : string)
| CallDisconnect.

(** The client library and the conversation it serves: one field for each
    method the program calls.  [get_messages] takes the resolved entity (here
    its id), [limit], [offset_date] and [filter]; [download_media] sees the
    files on disk, among which the library chooses the name it saves under. *)
Record Client := {
  connect_ : Result unit;
  is_user_authorized : Result bool;
  send_code_request : string -> Result unit;
  sign_in : string -> string -> Result unit;
  sign_in_password : string -> Result unit;
  get_dialogs_ : Result (list Dialog);
  get_entity : Z -> Result string;
  get_messages :
    Z -> option Z -> option Z -> option MessagesFilter -> Result (list Message);
  download_media_ : gmap string string -> Message -> string -> DownloadOutcome;
  disconnect : Result unit;
}.

(** The world outside the program: directories and files on disk (a file is
    its path and its content), the lines printed so far, the lines still to be
    read from the terminal, and the calls made to the library so far.  The
    file-system operations of the program ([mkdir], [open], [write]) are taken
    to succeed. *)
Record World := {
  dirs : gset string;
  files : gmap string string;
  stdout : list string;
  stdin : list string;
  calls : list Call;
}.

(** The local variables of [download_media] that its loop updates. *)
Record Frame := {
  world : World;
  downloaded_count : nat;
  skipped_count : nat;
}.

(** ** A state-and-exception monad

    A computation runs on a state and either returns a value or raises; the
    effects made before a [Raise] stay in the state. *)

Definition M (S A : Type) : Type := S -> Result A * S.

Definition ret {S A} (a : A) : M S A := fun s => (Ok a, s).

Definition bind {S A B} (m : M S A) (k : A -> M S B) : M S B :=
  fun s =>
    match m s with
    | (Ok a, s') => k a s'
    | (Raise e, s') => (Raise e, s')
    end.

Definition raise {S A} (e : BaseException) : M S A := fun s => (Raise e, s).

Definition modify {S} (f : S -> S) : M S unit := fun s => (Ok tt, f s).

Definition gets {S A} (f : S -> A) : M S A := fun s => (Ok (f s), s).

Declare Scope py_scope.
Delimit Scope py_scope with py.
Notation "x <- m ;; k" := (bind m (fun x => k))
  (at level 100, m at next level, right associativity) : py_scope.
Notation "m ;; k" := (bind m (fun _ => k))
  (at level 100, right associativity) : py_scope.
Local Open Scope py_scope.

(** [try: body / except Exception as e: handler(e)] *)
Definition try_except_Exception {S} (body : M S unit)
    (handler : string -> M S unit) : M S unit :=
  fun s =>
    match body s with
    | (Raise (Exception _ msg), s') => handler msg s'
    | r => r
    end.

(** [try: body / except SessionPasswordNeededError: handler] *)
Definition try_except_SessionPasswordNeeded {S} (body handler : M S unit)
  : M S unit :=
  fun s =>
    match body s with
    | (Raise (Exception SessionPasswordNeededError _), s') => handler s'
    | r => r
    end.

(** [try: body / finally: cleanup] *)
Definition try_finally {S A} (body : M S A) (cleanup : M S unit) : M S A :=
  fun s =>
    let (r, s') := body s in
    match cleanup s' with
    | (Ok _, s'') => (r, s'')
    | (Raise e, s'') => (Raise e, s'')
    end.

(** [for x in l: body(x)] *)
Fixpoint for_each {S A} (l : list A) (body : A -> M S unit) : M S unit :=
  match l with
  | [] => ret tt
  | x :: l' => body x ;; for_each l' body
  end.

(** A computation on the world, run from inside [download_media]'s loop. *)
Definition in_world {A} (m : M World A) : M Frame A :=
  fun f =>
    let (r, w) := m (world f) in
    (r, {| world := w; downloaded_count := downloaded_count f;
           skipped_count := skipped_count f |}).

(** ** Primitive operations on the world *)

Definition set_stdout (w : World) (o : list string) : World :=
  {| dirs := dirs w; files := files w; stdout := o; stdin := stdin w;
     calls := calls w |}.

Definition set_stdin (w : World) (i : list string) : World :=
  {| dirs := dirs w; files := files w; stdout := stdout w; stdin := i;
     calls := calls w |}.

Definition set_calls (w : World) (c : list Call) : World :=
  {| dirs := dirs w; files := files w; stdout := stdout w; stdin := stdin w;
     calls := c |}.

Definition set_files (w : World) (f : gmap string string) : World :=
  {| dirs := dirs w; files := f; stdout := stdout w; stdin := stdin w;
     calls := calls w |}.

Definition set_dirs (w : World) (d : gset string) : World :=
  {| dirs := d; files := files w; stdout := stdout w; stdin := stdin w;
     calls := calls w |}.

(** [print(s)] *)
Definition print (s : string) : M World unit :=
  modify (fun w => set_stdout w (stdout w ++ [s])).

(** [input(prompt)] *)
Definition input (prompt : string) : M World string :=
  print prompt ;;
  l <- gets stdin ;;
  match l with
  | line :: rest => modify (fun w => set_stdin w rest) ;; ret line
  | [] => raise (Exception OtherException "EOF when reading a line")
  end.

(** A call to the library: logged, then answered. *)
Definition library {A} (c : Call) (answer : Result A) : M World A :=
  modify (fun w => set_calls w (calls w ++ [c])) ;;
  match answer with
  | Ok a => ret a
  | Raise e => raise e
  end.

(** ** Paths *)

(** [Path(a) / b] on POSIX paths: an absolute [b] replaces [a]. *)
Definition joinpath (a b : string) : string :=
  if PyStr.startswith "/" b then b
  else if PyStr.truthy a then a +:+ "/" +:+ b
  else b.

(** [Path(p).parents], without the root and the current directory: the
    proper prefixes of [p] that end before a [/]. *)
Fixpoint parents_from (prefix rest : string) : list string :=
  match rest with
  | EmptyString => []
  | String c rest' =>
      let here :=
        if Ascii.eqb c "/" && PyStr.truthy prefix then [prefix] else [] in
      here ++ parents_from (prefix +:+ String c "") rest'
  end.

Definition parents (p : string) : list string := parents_from "" p.

(** [p.mkdir(parents=True, exist_ok=True)] *)
Definition mkdir (p : string) : M World unit :=
  modify (fun w => set_dirs w (dirs w ∪ {[p]} ∪ list_to_set (parents p))).

(** [p.exists()] *)
Definition path_exists (p : string) : M World bool :=
  gets (fun w => bool_decide (p ∈ dirs w) || bool_decide (is_Some (files w !! p))).

(** [open(p, 'w', encoding='utf-8')]: the file is created or truncated. *)
Definition open_w (p : string) : M World unit :=
  modify (fun w => set_files w (<[p := ""]> (files w))).

(** [f.write(s)] on the file opened at [p] *)
Definition write (p : string) (s : string) : M World unit :=
  modify (fun w => set_files w (<[p := default "" (files w !! p) +:+ s]> (files w))).

(** ** class TelegramDownloader *)

Record TelegramDownloader := {
  api_id : string;
  api_hash : string;
  phone : string;
  download_dir : string;
  client : Client;
}.

Definition DEFAULT_DOWNLOAD_DIR : string := "downloads".

(** [connect] *)
Definition connect (self : TelegramDownloader) : M World unit :=
  library CallConnect (connect_ (client self)) ;;
  authorized <- library CallIsUserAuthorized (is_user_authorized (client self)) ;;
  (if negb authorized then
     library (CallSendCodeRequest (phone self))
       (send_code_request (client self) (phone self)) ;;
     try_except_SessionPasswordNeeded
       (print ("A verification code has been sent to " +:+ phone self) ;;
        code <- input "Enter the verification code: " ;;
        library (CallSignIn (phone self) code)
          (sign_in (client self) (phone self) code))
       (password <- input "Enter your two-step verification password: " ;;
        library (CallSignInPassword password)
          (sign_in_password (client self) password))
   else ret tt) ;;
  print "Successfully authenticated with Telegram!".

(** The dictionaries built by [get_dialogs]. *)
Record DialogInfo := {
  info_id : Z;
  info_name : string;
  info_type : string;
}.

Definition dialog_type (d : Dialog) : string :=
  if is_group d then "Group" else if is_channel d then "Channel" else "Private".

(** [get_dialogs] *)
Definition get_dialogs (self : TelegramDownloader) : M World (list DialogInfo) :=
  dialogs <- library CallGetDialogs (get_dialogs_ (client self)) ;;
  ret (map (fun dialog =>
              {| info_id := dialog_id dialog; info_name := dialog_name dialog;
                 info_type := dialog_type dialog |}) dialogs).

Definition dialog_row (i : nat) (d : DialogInfo) : string :=
  PyStr.ljust 6 (PyStr.of_int (Z.of_nat i)) +:+ " " +:+
  PyStr.ljust 12 (PyStr.of_int (info_id d)) +:+ " " +:+
  PyStr.ljust 10 (info_type d) +:+ " " +:+
  PyStr.ljust 30 (info_name d).

(** [for i, dialog in enumerate(dialogs, start): print(row)] *)
Fixpoint print_rows (start : nat) (l : list DialogInfo) : M World unit :=
  match l with
  | [] => ret tt
  | d :: l' => print (dialog_row start d) ;; print_rows (S start) l'
  end.

(** [list_dialogs] *)
Definition list_dialogs (self : TelegramDownloader) : M World unit :=
  dialogs <- get_dialogs self ;;
  print (PyStr.newline +:+ "Available Telegram Groups/Channels:") ;;
  print (PyStr.repeat_char "-" 60) ;;
  print (PyStr.ljust 6 "Index" +:+ " " +:+ PyStr.ljust 12 "ID" +:+ " " +:+
         PyStr.ljust 10 "Type" +:+ " " +:+ PyStr.ljust 30 "Name") ;;
  print (PyStr.repeat_char "-" 60) ;;
  print_rows 1 dialogs.

(** The server-side filter chosen from [media_type]. *)
Definition filter_type (media_type : MediaType) : option MessagesFilter :=
  match media_type with
  | photos => Some InputMessagesFilterPhotos
  | documents => Some InputMessagesFilterDocument
  | links => Some InputMessagesFilterUrl
  | gifs => Some InputMessagesFilterGif
  | all => None
  end.

(** [msg.text and contains.lower() in msg.text.lower()] *)
Definition text_matches (contains : string) (msg : Message) : bool :=
  match text msg with
  | Some t => PyStr.truthy t && PyStr.contains (PyStr.lower contains) (PyStr.lower t)
  | None => false
  end.

(** [if contains: messages = [msg for msg in messages if ...]] *)
Definition filter_by_content (contains : option string)
    (messages : list Message) : list Message :=
  if PyStr.opt_truthy contains
  then List.filter (text_matches (default "" contains)) messages
  else messages.

(** [media_type in ['all', 'photos', 'documents', 'gifs']] *)
Definition wants_files (media_type : MediaType) : bool :=
  match media_type with
  | all | photos | documents | gifs => true
  | links => false
  end.

(** [media_type in ['all', 'links']] *)
Definition wants_links (media_type : MediaType) : bool :=
  match media_type with
  | all | links => true
  | _ => false
  end.

Definition incr_downloaded : M Frame unit :=
  modify (fun f => {| world := world f;
                      downloaded_count := S (downloaded_count f);
                      skipped_count := skipped_count f |}).

Definition incr_skipped : M Frame unit :=
  modify (fun f => {| world := world f;
                      downloaded_count := downloaded_count f;
                      skipped_count := S (skipped_count f) |}).

(** [await self.client.download_media(message, entity_dir)] *)
Definition client_download_media (c : Client) (message : Message)
    (entity_dir : string) : M World (option string) :=
  fs <- gets files ;;
  match download_media_ c fs message entity_dir with
  | Saved path data =>
      library (CallDownloadMedia message entity_dir) (Ok tt) ;;
      modify (fun w => set_files w (<[path := data]> (files w))) ;;
      ret (Some path)
  | NoFile => library (CallDownloadMedia message entity_dir) (Ok None)
  | DownloadFailed e => library (CallDownloadMedia message entity_dir) (Raise e)
  end.

(** The body of [for attr in attributes.attributes].  Its [continue] moves
    on to the next attribute. *)
Definition check_attribute (entity_dir : string) (attr : DocumentAttribute)
  : M Frame unit :=
  match attr with
  | DocumentAttributeFilename file_name =>
      if PyStr.truthy file_name then
        present <- in_world (path_exists (joinpath entity_dir file_name)) ;;
        if (present : bool) then
          in_world (print ("Skipping existing file: " +:+ file_name)) ;;
          incr_skipped
        else ret tt
      else ret tt
  | DocumentAttributeOther => ret tt
  end.

(** [attributes.attributes] when [getattr(message.media, 'document', None)]
    is there and has attributes. *)
Definition document_attributes (m : MessageMedia) : list DocumentAttribute :=
  match m with
  | MessageMediaDocument (Some attrs) => attrs
  | _ => []
  end.

(** The [if message.media:] part of the loop body. *)
Definition handle_media (c : Client) (media_type : MediaType)
    (entity_dir : string) (links_file : option string) (message : Message)
  : M Frame unit :=
  match media message with
  | Some (MessageMediaWebPage url) =>
      if PyStr.opt_truthy url then
        match wants_links media_type, links_file with
        | true, Some f =>
            in_world (write f (default "" url +:+ PyStr.newline)) ;;
            incr_downloaded
        | _, _ => ret tt
        end
      else ret tt
  | Some MessageMediaOther => ret tt
  | Some m =>
      if wants_files media_type then
        for_each (document_attributes m) (check_attribute entity_dir) ;;
        filename <- in_world (client_download_media c message entity_dir) ;;
        if PyStr.opt_truthy filename then incr_downloaded else ret tt
      else ret tt
  | None => ret tt
  end.

(** The [# Extract URLs from message text] part of the loop body. *)
Definition handle_text (media_type : MediaType) (links_file : option string)
    (message : Message) : M Frame unit :=
  match PyStr.opt_truthy (text message) && wants_links media_type, links_file with
  | true, Some f =>
      for_each (UrlPattern.findall (default "" (text message)))
        (fun url => in_world (write f (url +:+ PyStr.newline)) ;; incr_downloaded)
  | _, _ => ret tt
  end.

(** The body of [for message in messages], with its [try]/[except]. *)
Definition process_message (c : Client) (media_type : MediaType)
    (entity_dir : string) (links_file : option string) (message : Message)
  : M Frame unit :=
  try_except_Exception
    (handle_media c media_type entity_dir links_file message ;;
     handle_text media_type links_file message)
    (fun e => in_world (print ("Error processing message: " +:+ e))).

(** Runs a computation on the loop's variables, both counters starting at 0,
    and returns their final values. *)
Definition with_counters (m : M Frame unit) : M World (nat * nat) :=
  fun w =>
    match m {| world := w; downloaded_count := 0; skipped_count := 0 |} with
    | (Ok _, f) => (Ok (downloaded_count f, skipped_count f), world f)
    | (Raise e, f) => (Raise e, world f)
    end.

(** [entity_dir = Path(self.download_dir) / f"{entity_name}_{entity_id}"] *)
Definition entity_dir_of (self : TelegramDownloader) (entity_name : string)
    (entity_id : Z) : string :=
  joinpath (download_dir self) (entity_name +:+ "_" +:+ PyStr.of_int entity_id).

Definition links_path (entity_dir : string) : string :=
  joinpath entity_dir "extracted_links.txt".

(** [download_media].  The entity is represented by its display name. *)
Definition download_media (self : TelegramDownloader) (entity_id : Z)
    (media_type : MediaType) (limit : option Z) (offset_date : option Z)
    (contains : option string) : M World unit :=
  entity_name <- library (CallGetEntity entity_id)
                   (get_entity (client self) entity_id) ;;
  let entity_dir := entity_dir_of self entity_name entity_id in
  mkdir entity_dir ;;
  print (PyStr.newline +:+ "Downloading " +:+ media_type_str media_type +:+
         " from " +:+ entity_name) ;;
  print ("Saving to: " +:+ entity_dir) ;;
  fetched <- library
               (CallGetMessages entity_id limit offset_date (filter_type media_type))
               (get_messages (client self) entity_id limit offset_date
                  (filter_type media_type)) ;;
  let messages := filter_by_content contains fetched in
  match messages with
  | [] => print "No matching messages found."
  | _ :: _ =>
      print ("Found " +:+ PyStr.of_int (Z.of_nat (length messages)) +:+
             " messages to process.") ;;
      links_file <-
        (if wants_links media_type
         then open_w (links_path entity_dir) ;; ret (Some (links_path entity_dir))
         else ret None) ;;
      counts <- with_counters
                  (for_each messages
                     (process_message (client self) media_type entity_dir links_file)) ;;
      print (PyStr.newline +:+ "Downloaded/extracted " +:+
             PyStr.of_int (Z.of_nat (fst counts)) +:+ " items from " +:+
             entity_name +:+ ".") ;;
      if (0 <? snd counts)%nat
      then print ("Skipped " +:+ PyStr.of_int (Z.of_nat (snd counts)) +:+
                  " already existing files.")
      else ret tt
  end.

(** [close] *)
Definition close (self : TelegramDownloader) : M World unit :=
  library CallDisconnect (disconnect (client self)).

(** ** The command-line driver *)

(** The parsed command line. *)
Record Args := {
  args_list : bool;
  args_download : bool;
  args_entity_id : option Z;
  args_media_type : MediaType;
  args_limit : Z;
  args_days : option Z;
  args_contains : option string;
  args_download_dir : string;
}.

(** The process environment: the three credentials read by [os.getenv] and
    the value of [datetime.now()], in microseconds. *)
Record Environ := {
  API_ID : option string;
  API_HASH : option string;
  PHONE_NUMBER : option string;
  now : Z;
}.

(** [timedelta(days=n)], in microseconds. *)
Definition timedelta_days (n : Z) : Z := n * 86400000000.

(** [offset_date = None; if args.days: offset_date = now - timedelta(days)] *)
Definition offset_date_of (env : Environ) (days : option Z) : option Z :=
  match days with
  | Some d => if (d =? 0)%Z then None else Some (now env - timedelta_days d)
  | None => None
  end.

(** [actual_limit = None if args.limit == 0 else args.limit] *)
Definition actual_limit (limit : Z) : option Z :=
  if (limit =? 0)%Z then None else Some limit.

(** [not args.entity_id] *)
Definition entity_id_missing (entity_id : option Z) : bool :=
  match entity_id with
  | Some i => (i =? 0)%Z
  | None => true
  end.

(** The text of [parser.print_help()]. *)
Definition help_text : string := "usage: telegram_downloader.py [-h] [--list] [--download] [--entity-id ENTITY_ID] [--media-type {all,photos,documents,links,gifs}] [--limit LIMIT] [--days DAYS] [--contains CONTAINS] [--download-dir DOWNLOAD_DIR]".

Definition credentials_error : string :=
  "Error: API credentials not found. Please set TELEGRAM_API_ID, TELEGRAM_API_HASH, and TELEGRAM_PHONE_NUMBER in .env.local file.".

(** [all([API_ID, API_HASH, PHONE_NUMBER])] *)
Definition credentials_present (env : Environ) : bool :=
  PyStr.opt_truthy (API_ID env) && PyStr.opt_truthy (API_HASH env)
  && PyStr.opt_truthy (PHONE_NUMBER env).

(** [TelegramDownloader(api_id=API_ID, api_hash=API_HASH, phone=PHONE_NUMBER,
    download_dir=args.download_dir)]; [lib] is the client library the
    [TelegramClient] of the downloader talks to. *)
Definition downloader_of (env : Environ) (lib : Client) (args : Args)
  : TelegramDownloader :=
  {| api_id := default "" (API_ID env);
     api_hash := default "" (API_HASH env);
     phone := default "" (PHONE_NUMBER env);
     download_dir := args_download_dir args;
     client := lib |}.

(** [main], from the parsed arguments on. *)
Definition main (env : Environ) (lib : Client) (args : Args) : M World unit :=
  if negb (credentials_present env)
  then print credentials_error
  else
    let downloader := downloader_of env lib args in
    try_finally
      (connect downloader ;;
       if args_list args then list_dialogs downloader
       else if args_download args then
         if entity_id_missing (args_entity_id args) then
           print "Error: --entity-id is required for downloading." ;;
           list_dialogs downloader
         else
           download_media downloader (default 0 (args_entity_id args))
             (args_media_type args) (actual_limit (args_limit args))
             (offset_date_of env (args_days args)) (args_contains args)
       else print help_text)
      (close downloader).

(** The [if __name__ == '__main__':] block: the final world and the exit
    status of the process. *)
Definition script (env : Environ) (lib : Client) (args : Args) (w : World)
  : Z * World :=
  match main env lib args w with
  | (Ok _, w') => (0, w')
  | (Raise KeyboardInterrupt, w') =>
      (0, snd (print (PyStr.newline +:+ "Operation cancelled by user.") w'))
  | (Raise (Exception _ msg), w') =>
      (1, snd (print (PyStr.newline +:+ "Error: " +:+ msg) w'))
  end.

(** ** Sample worlds and libraries, for running the program *)

Module Sample.

Definition empty_world : World :=
  {| dirs := ∅; files := ∅; stdout := []; stdin := []; calls := [] |}.

(** The name a message's media is saved under: the document's file name,
    or a name made from the message id. *)
Definition media_name (m : Message) : string :=
  match media m with
  | Some (MessageMediaDocument (Some (DocumentAttributeFilename n :: _))) => n
  | _ => "media_" +:+ PyStr.of_int (msg_id m)
  end.

(** Saves under the media's name, or under that name followed by [ (1)]
    when it is taken. *)
Definition save_media (fs : gmap string string) (m : Message) (dir : string)
  : DownloadOutcome :=
  let p := joinpath dir (media_name m) in
  match fs !! p with
  | Some _ => Saved (p +:+ " (1)") "data"
  | None => Saved p "data"
  end.

(** [l[:limit]] for the [limit] of [get_messages]. *)
Definition up_to (limit : option Z) (l : list Message) : list Message :=
  match limit with
  | Some n => take (Z.to_nat n) l
  | None => l
  end.

(** A library that is logged in, knows every conversation as [chat] and
    answers [get_messages] with the first [limit] messages of [history],
    whatever [offset_date] and [filter] are. *)
Definition serving (history : list Message) : Client :=
  {| connect_ := Ok tt;
     is_user_authorized := Ok true;
     send_code_request := fun _ => Ok tt;
     sign_in := fun _ _ => Ok tt;
     sign_in_password := fun _ => Ok tt;
     get_dialogs_ := Ok [];
     get_entity := fun _ => Ok "chat";
     get_messages := fun _ limit _ _ => Ok (up_to limit history);
     download_media_ := save_media;
     disconnect := Ok tt |}.

(** The same library, reading [offset_date] the way the client library
    documents it: the messages previous to that date are retrieved, the
    date itself excluded. *)
Definition serving_previous_to (history : list Message) : Client :=
  {| connect_ := Ok tt;
     is_user_authorized := Ok true;
     send_code_request := fun _ => Ok tt;
     sign_in := fun _ _ => Ok tt;
     sign_in_password := fun _ => Ok tt;
     get_dialogs_ := Ok [];
     get_entity := fun _ => Ok "chat";
     get_messages := fun _ limit offset_date _ =>
       Ok (up_to limit
             (List.filter
                (fun m => match offset_date with
                          | Some d => (date m <? d)%Z
                          | None => true
                          end) history));
     download_media_ := save_media;
     disconnect := Ok tt |}.

Definition downloader (lib : Client) : TelegramDownloader :=
  {| api_id := "1"; api_hash := "h"; phone := "+100";
     download_dir := DEFAULT_DOWNLOAD_DIR; client := lib |}.

Definition environ : Environ :=
  {| API_ID := Some "1"; API_HASH := Some "h"; PHONE_NUMBER := Some "+100";
     now := timedelta_days 100 |}.

(** [--download --entity-id 5], the other options at their defaults. *)
Definition args : Args :=
  {| args_list := false; args_download := true; args_entity_id := Some 5;
     args_media_type := all; args_limit := 100; args_days := None;
     args_contains := None; args_download_dir := DEFAULT_DOWNLOAD_DIR |}.

Definition report : Message :=
  {| msg_id := 1; date := timedelta_days 99; text := None;
     media := Some (MessageMediaDocument
                      (Some [DocumentAttributeFilename "a.pdf"])) |}.

(** A world in which [a.pdf] was downloaded from [chat] before. *)
Definition world_with_report : World :=
  {| dirs := {[ "downloads"; "downloads/chat_5" ]};
     files := {[ "downloads/chat_5/a.pdf" := "data" ]};
     stdout := []; stdin := []; calls := [] |}.

Definition two_links : Message :=
  {| msg_id := 2; date := timedelta_days 99;
     text := Some "see http://a.org and http://b.org";
     media := Some (MessageMediaWebPage (Some "http://a.org")) |}.

Definition plain_two_links : Message :=
  {| msg_id := 3; date := timedelta_days 99;
     text := Some "see http://a.org and http://b.org";
     media := None |}.

Definition no_text : Message :=
  {| msg_id := 4; date := timedelta_days 99; text := None;
     media := Some MessageMediaPhoto |}.

Definition old_link : Message :=
  {| msg_id := 5; date := timedelta_days 90;
     text := Some "http://old.org"; media := None |}.

Definition recent_link : Message :=
  {| msg_id := 6; date := timedelta_days 100 - 3600000000;
     text := Some "http://new.org"; media := None |}.

(** A library whose [connect] raises [e]. *)
Definition failing (e : BaseException) : Client :=
  {| connect_ := Raise e;
     is_user_authorized := Ok true;
     send_code_request := fun _ => Ok tt;
     sign_in := fun _ _ => Ok tt;
     sign_in_password := fun _ => Ok tt;
     get_dialogs_ := Ok [];
     get_entity := fun _ => Ok "chat";
     get_messages := fun _ _ _ _ => Ok [];
     download_media_ := save_media;
     disconnect := Ok tt |}.

(** The environment without a phone number. *)
Definition environ_without_phone : Environ :=
  {| API_ID := Some "1"; API_HASH := Some "h"; PHONE_NUMBER := None;
     now := timedelta_days 100 |}.

(** [--download --entity-id 5 --media-type links --limit 0 --days 1] *)
Definition args_last_day : Args :=
  {| args_list := false; args_download := true; args_entity_id := Some 5;
     args_media_type := links; args_limit := 0; args_days := Some 1;
     args_contains := None; args_download_dir := DEFAULT_DOWNLOAD_DIR |}.

(** A library like [serving], whose [download_media] raises [e]. *)
Definition refusing_downloads (e : BaseException) (history : list Message)
  : Client :=
  {| connect_ := Ok tt;
     is_user_authorized := Ok true;
     send_code_request := fun _ => Ok tt;
     sign_in := fun _ _ => Ok tt;
     sign_in_password := fun _ => Ok tt;
     get_dialogs_ := Ok [];
     get_entity := fun _ => Ok "chat";
     get_messages := fun _ limit _ _ => Ok (up_to limit history);
     download_media_ := fun _ _ _ => DownloadFailed e;
     disconnect := Ok tt |}.

(** A photo whose caption holds a link. *)
Definition photo_with_link : Message :=
  {| msg_id := 7; date := timedelta_days 99;
     text := Some "album at http://a.org"; media := Some MessageMediaPhoto |}.

(** A frame on [w], both counters at 0. *)
Definition frame_on (w : World) : Frame :=
  {| world := w; downloaded_count := 0; skipped_count := 0 |}.

(** A world in which an earlier run left a links file. *)
Definition world_with_old_links : World :=
  {| dirs := {[ "downloads"; "downloads/chat_5" ]};
     files := {[ "downloads/chat_5/extracted_links.txt" := "http://stale.org" ]};
     stdout := []; stdin := []; calls := [] |}.

(** A library with no authorized session, whose account has two-step
    verification on: signing in with the code asks for the password. *)
Definition asking_for_password : Client :=
  {| connect_ := Ok tt;
     is_user_authorized := Ok false;
     send_code_request := fun _ => Ok tt;
     sign_in := fun _ _ =>
       Raise (Exception SessionPasswordNeededError
                "Two-steps verification is enabled");
     sign_in_password := fun _ => Ok tt;
     get_dialogs_ := Ok [];
     get_entity := fun _ => Ok "chat";
     get_messages := fun _ _ _ _ => Ok [];
     download_media_ := save_media;
     disconnect := Ok tt |}.

(** A library with no authorized session that refuses the code. *)
Definition refusing_code : Client :=
  {| connect_ := Ok tt;
     is_user_authorized := Ok false;
     send_code_request := fun _ => Ok tt;
     sign_in := fun _ _ =>
       Raise (Exception OtherException "The phone code entered was invalid");
     sign_in_password := fun _ => Ok tt;
     get_dialogs_ := Ok [];
     get_entity := fun _ => Ok "chat";
     get_messages := fun _ _ _ _ => Ok [];
     download_media_ := save_media;
     disconnect := Ok tt |}.

(** The empty world with [lines] waiting on the terminal. *)
Definition typing (lines : list string) : World :=
  {| dirs := ∅; files := ∅; stdout := []; stdin := lines; calls := [] |}.

(** A supergroup is flagged as a group and as a channel. *)
Definition supergroup : Dialog :=
  {| dialog_id := -1001; dialog_name := "Rocq users"; is_group := true;
     is_channel := true |}.

Definition broadcast : Dialog :=
  {| dialog_id := -1002; dialog_name := "News"; is_group := false;
     is_channel := true |}.

(** A logged-in library that lists [ds] and knows no conversation. *)
Definition listing (ds : list Dialog) : Client :=
  {| connect_ := Ok tt;
     is_user_authorized := Ok true;
     send_code_request := fun _ => Ok tt;
     sign_in := fun _ _ => Ok tt;
     sign_in_password := fun _ => Ok tt;
     get_dialogs_ := Ok ds;
     get_entity := fun _ =>
       Raise (Exception OtherException "Cannot find any entity");
     get_messages := fun _ _ _ _ =>
       Raise (Exception OtherException "Cannot get messages");
     download_media_ := save_media;
     disconnect := Ok tt |}.

(** [--list --download --entity-id 5] *)
Definition args_list_and_download : Args :=
  {| args_list := true; args_download := true; args_entity_id := Some 5;
     args_media_type := all; args_limit := 100; args_days := None;
     args_contains := None; args_download_dir := DEFAULT_DOWNLOAD_DIR |}.

(** [--list] *)
Definition args_list_only : Args :=
  {| args_list := true; args_download := false; args_entity_id := None;
     args_media_type := all; args_limit := 100; args_days := None;
     args_contains := None; args_download_dir := DEFAULT_DOWNLOAD_DIR |}.

(** No action flag. *)
Definition args_none : Args :=
  {| args_list := false; args_download := false; args_entity_id := None;
     args_media_type := all; args_limit := 100; args_days := None;
     args_contains := None; args_download_dir := DEFAULT_DOWNLOAD_DIR |}.

(** [--download --entity-id 0] *)
Definition args_entity_zero : Args :=
  {| args_list := false; args_download := true; args_entity_id := Some 0;
     args_media_type := all; args_limit := 100; args_days := None;
     args_contains := None; args_download_dir := DEFAULT_DOWNLOAD_DIR |}.

(** [--download --entity-id 5 --days 0] *)
Definition args_days_zero : Args :=
  {| args_list := false; args_download := true; args_entity_id := Some 5;
     args_media_type := all; args_limit := 100; args_days := Some 0;
     args_contains := None; args_download_dir := DEFAULT_DOWNLOAD_DIR |}.

(** A library that resolves the conversation and loses the connection when
    asked for its messages. *)
Definition losing_connection : Client :=
  {| connect_ := Ok tt;
     is_user_authorized := Ok true;
     send_code_request := fun _ => Ok tt;
     sign_in := fun _ _ => Ok tt;
     sign_in_password := fun _ => Ok tt;
     get_dialogs_ := Ok [];
     get_entity := fun _ => Ok "chat";
     get_messages := fun _ _ _ _ =>
       Raise (Exception OtherException "Connection lost");
     download_media_ := save_media;
     disconnect := Ok tt |}.


End Sample.


(** ** Vocabulary of the properties *)

(** [m] leaves the part [part] of the state as it found it, whether it
    returns or raises. *)
Definition preserves {S X A : Type} (part : S -> X) (m : M S A) : Prop :=
  forall s, part (snd (m s)) = part s.

(** The world once the conversation is resolved and its directory made. *)
Definition resolved (self : TelegramDownloader) (name : string) (id : Z)
    (w : World) : World :=
  set_dirs (set_calls w (calls w ++ [CallGetEntity id]))
    (dirs w ∪ {[entity_dir_of self name id]}
       ∪ list_to_set (parents (entity_dir_of self name id))).

(** What [download_media] does after [mkdir]. *)
Definition after_mkdir (self : TelegramDownloader) (name : string) (id : Z)
    (media_type : MediaType) (limit offset_date : option Z)
    (contains : option string) : M World unit :=
  let entity_dir := entity_dir_of self name id in
  print (PyStr.newline +:+ "Downloading " +:+ media_type_str media_type +:+
         " from " +:+ name) ;;
  print ("Saving to: " +:+ entity_dir) ;;
  fetched <- library
               (CallGetMessages id limit offset_date (filter_type media_type))
               (get_messages (client self) id limit offset_date
                  (filter_type media_type)) ;;
  let messages := filter_by_content contains fetched in
  match messages with
  | [] => print "No matching messages found."
  | _ :: _ =>
      print ("Found " +:+ PyStr.of_int (Z.of_nat (length messages)) +:+
             " messages to process.") ;;
      links_file <-
        (if wants_links media_type
         then open_w (links_path entity_dir) ;; ret (Some (links_path entity_dir))
         else ret None) ;;
      counts <- with_counters
                  (for_each messages
                     (process_message (client self) media_type entity_dir links_file)) ;;
      print (PyStr.newline +:+ "Downloaded/extracted " +:+
             PyStr.of_int (Z.of_nat (fst counts)) +:+ " items from " +:+
             name +:+ ".") ;;
      if (0 <? snd counts)%nat
      then print ("Skipped " +:+ PyStr.of_int (Z.of_nat (snd counts)) +:+
                  " already existing files.")
      else ret tt
  end.

(** The frame after [lines] were written to the links file [f], with [n]
    more items counted. *)
Definition frame_with_links (fr : Frame) (f : string) (lines : string) (n : nat)
  : Frame :=
  {| world := set_files (world fr)
                (<[f := default "" (files (world fr) !! f) +:+ lines]>
                   (files (world fr)));
     downloaded_count := n + downloaded_count fr;
     skipped_count := skipped_count fr |}.

(** The links a message holds: the URL of its web-page preview, then the
    matches of the URL pattern in its text. *)
Definition message_links (m : Message) : list string :=
  match media m with
  | Some (MessageMediaWebPage (Some u)) => if PyStr.truthy u then [u] else []
  | _ => []
  end
  ++ UrlPattern.findall (default "" (text m)).

(** The lines of a file that holds one entry per line. *)
Fixpoint unlines (l : list string) : string :=
  match l with
  | [] => ""
  | u :: l' => u +:+ PyStr.newline +:+ unlines l'
  end.

(** Every exception [m] can raise is among the [allowed] ones. *)
Definition raises_only {S A : Type} (allowed : BaseException -> Prop)
    (m : M S A) : Prop :=
  forall s e, fst (m s) = Raise e -> allowed e.

Definition no_exception : BaseException -> Prop := fun _ => False.

Definition interrupt_only : BaseException -> Prop :=
  fun e => e = KeyboardInterrupt.

(** The library is not interrupted during a download. *)
Definition downloads_uninterrupted (c : Client) : Prop :=
  forall fs m dir, download_media_ c fs m dir <> DownloadFailed KeyboardInterrupt.

(** The dictionary [get_dialogs] builds for a dialog. *)
Definition dialog_info (d : Dialog) : DialogInfo :=
  {| info_id := dialog_id d; info_name := dialog_name d;
     info_type := dialog_type d |}.

(** The four lines that head the table of [list_dialogs]. *)
Definition table_head : list string :=
  [PyStr.newline +:+ "Available Telegram Groups/Channels:";
   PyStr.repeat_char "-" 60;
   PyStr.ljust 6 "Index" +:+ " " +:+ PyStr.ljust 12 "ID" +:+ " " +:+
   PyStr.ljust 10 "Type" +:+ " " +:+ PyStr.ljust 30 "Name";
   PyStr.repeat_char "-" 60].

(** The characters of a string. *)
Fixpoint chars (s : string) : list ascii :=
  match s with
  | EmptyString => []
  | String c s' => c :: chars s'
  end.






(** * Properties *)

(** ** Strings *)

Section Strings.

Implicit Types s t p : string.

Lemma str_app_nil_l s : "" +:+ s = s.
Proof. reflexivity. Qed.

Lemma str_app_cons c s t : String c s +:+ t = String c (s +:+ t).
Proof. reflexivity. Qed.

Lemma str_app_nil_r s : s +:+ "" = s.
Proof. induction s as [|c s IH]; [reflexivity|]. now rewrite str_app_cons, IH. Qed.

Lemma str_app_assoc s t p : (s +:+ t) +:+ p = s +:+ (t +:+ p).
Proof.
  induction s as [|c s IH]; [reflexivity|]. now rewrite !str_app_cons, IH.
Qed.

Lemma startswith_spec p s :
  PyStr.startswith p s = true <-> exists rest, s = p +:+ rest.
Proof.
  revert s. induction p as [|a p IH]; intros s; simpl.
  - split; [intros _; now exists s | reflexivity].
  - destruct s as [|b s].
    + split; [discriminate | intros [rest H]; discriminate].
    + rewrite andb_true_iff, IH. split.
      * intros [Hab [rest ->]]. apply Ascii.eqb_eq in Hab as ->.
        now exists rest.
      * intros [rest H]. rewrite str_app_cons in H. injection H as -> ->.
        split; [apply Ascii.eqb_refl | now exists rest].
Qed.

(** Python's [in] on strings finds exactly the substrings. *)
Lemma contains_spec p s :
  PyStr.contains p s = true <-> exists before after, s = before +:+ p +:+ after.
Proof.
  induction s as [|b s IH]; simpl.
  - rewrite orb_false_r, startswith_spec. split.
    + intros [rest H]. now exists "", rest.
    + intros [[|c before] [after H]]; [now exists after|discriminate].
  - rewrite orb_true_iff, startswith_spec, IH. split.
    + intros [[rest H] | (before & after & H)].
      * now exists "", rest.
      * exists (String b before), after. now rewrite str_app_cons, H.
    + intros ([|c before] & after & H).
      * left. now exists after.
      * right. rewrite str_app_cons in H. injection H as -> ->.
        now exists before, after.
Qed.










Lemma truthy_spec s : PyStr.truthy s = true <-> s <> "".
Proof. destruct s; simpl; split; congruence. Qed.




End Strings.

(** ** The URL pattern on sample texts *)

Example findall_two_urls :
  UrlPattern.findall "see https://a.org/x?y=1 and http://b.io, ok"
  = ["https://a.org/x?y=1"; "http://b.io,"].
Proof. reflexivity. Qed.

Example findall_percent_and_punctuation :
  UrlPattern.findall "a http://x.y/p%20q%zz!(1) b https://u https://"
  = ["http://x.y/p%20q%zz!(1)"; "https://u"].
Proof. reflexivity. Qed.

Example findall_is_case_sensitive :
  UrlPattern.findall "HTTP://A.ORG http:// x" = [].
Proof. reflexivity. Qed.

Example findall_adjacent_urls :
  UrlPattern.findall "http://a.orghttp://b.org" = ["http://a.orghttp://b.org"].
Proof. reflexivity. Qed.

(** ** The content filter *)



Lemma filter_by_content_truthy (c : string) (messages : list Message) :
  c <> "" ->
  filter_by_content (Some c) messages = List.filter (text_matches c) messages.
Proof.
  intros Hc. unfold filter_by_content. simpl.
  apply truthy_spec in Hc. now rewrite Hc.
Qed.




(** C9 — an empty [--contains] string switches the content filter off: the
    fetched list goes through unchanged, messages without text included, and
    the run is the run without the option; a non-empty string drops every
    message without text. *)
Theorem C9_empty_contains_is_no_filter
    (self : TelegramDownloader) (entity_id : Z) (media_type : MediaType)
    (limit offset_date : option Z) (fetched : list Message) :
  filter_by_content (Some "") fetched = fetched
  /\ download_media self entity_id media_type limit offset_date (Some "")
     = download_media self entity_id media_type limit offset_date None
  /\ (forall m, In m fetched -> text m = None ->
        In m (filter_by_content (Some "") fetched))
  /\ (forall c m, c <> "" -> text m = None ->
        ~ In m (filter_by_content (Some c) fetched)).
Proof.
  repeat split.
  - intros m Hin _. exact Hin.
  - intros c m Hc Hnone. rewrite filter_by_content_truthy by assumption.
    rewrite filter_In. intros [_ H]. unfold text_matches in H.
    rewrite Hnone in H. discriminate.
Qed.

Lemma C9_empty_contains_is_no_filter_witness :
  In Sample.no_text (filter_by_content (Some "") [Sample.no_text])
  /\ ~ In Sample.no_text (filter_by_content (Some "x") [Sample.no_text]).
Proof.
  pose proof (C9_empty_contains_is_no_filter (Sample.downloader (Sample.serving []))
                5 all None None [Sample.no_text]) as (_ & _ & Hkeep & Hdrop).
  split.
  - apply Hkeep; [left; reflexivity | reflexivity].
  - apply Hdrop; [discriminate | reflexivity].
Defined.

(** ** The driver *)

(** The download branch of [main]. *)
Lemma main_download (env : Environ) (lib : Client) (args : Args) (id : Z) :
  credentials_present env = true ->
  args_list args = false ->
  args_download args = true ->
  args_entity_id args = Some id ->
  id <> 0 ->
  main env lib args
  = try_finally
      (connect (downloader_of env lib args) ;;
       download_media (downloader_of env lib args) id (args_media_type args)
         (actual_limit (args_limit args))
         (offset_date_of env (args_days args)) (args_contains args))
      (close (downloader_of env lib args)).
Proof.
  intros Hcred Hlist Hdl Hid Hnz. unfold main.
  rewrite Hcred, Hlist, Hdl, Hid. simpl.
  apply Z.eqb_neq in Hnz. now rewrite Hnz.
Qed.

(** C3 — [--limit 0] makes the limit handed to [download_media] the absent
    one ([None], no bound on the fetch) and not a bound of zero messages;
    any other [--limit L] hands over exactly [L]. *)
Theorem C3_limit_zero_is_unbounded
    (env : Environ) (lib : Client) (args : Args) (id : Z) :
  credentials_present env = true ->
  args_list args = false ->
  args_download args = true ->
  args_entity_id args = Some id ->
  id <> 0 ->
  main env lib args
  = try_finally
      (connect (downloader_of env lib args) ;;
       download_media (downloader_of env lib args) id (args_media_type args)
         (if decide (args_limit args = 0) then None else Some (args_limit args))
         (offset_date_of env (args_days args)) (args_contains args))
      (close (downloader_of env lib args))
  /\ actual_limit 0 = None
  /\ (args_limit args <> 0 -> actual_limit (args_limit args) = Some (args_limit args)).
Proof.
  intros Hcred Hlist Hdl Hid Hnz.
  assert (Hlim : actual_limit (args_limit args)
                 = if decide (args_limit args = 0) then None
                   else Some (args_limit args)).
  { unfold actual_limit. destruct (decide (args_limit args = 0)) as [->|Hne].
    - reflexivity.
    - apply Z.eqb_neq in Hne. now rewrite Hne. }
  split; [|split].
  - rewrite (main_download env lib args id) by assumption. now rewrite Hlim.
  - reflexivity.
  - intros Hne. rewrite Hlim. now destruct (decide (args_limit args = 0)).
Qed.

Lemma C3_limit_zero_is_unbounded_witness :
  In (CallGetMessages 5 None (Some (timedelta_days 99)) (Some InputMessagesFilterUrl))
     (calls (snd (main Sample.environ (Sample.serving []) Sample.args_last_day
                    Sample.empty_world)))
  /\ actual_limit (args_limit Sample.args) = Some 100.
Proof.
  assert (H5 : (5 : Z) <> 0) by discriminate.
  split.
  - rewrite (proj1 (C3_limit_zero_is_unbounded Sample.environ (Sample.serving [])
                      Sample.args_last_day 5 eq_refl eq_refl eq_refl eq_refl H5)).
    vm_compute. auto.
  - apply (proj2 (proj2 (C3_limit_zero_is_unbounded Sample.environ
                           (Sample.serving []) Sample.args 5
                           eq_refl eq_refl eq_refl eq_refl H5))).
    discriminate.
Defined.

(** C8 — when one of the three credentials is absent from the environment,
    the run prints the credentials error and returns at once: the library is
    not called at all (no connection, no listing, no download) and the disk is
    left as it was. *)
Theorem C8_missing_credentials_abort
    (env : Environ) (lib : Client) (args : Args) (w : World) :
  API_ID env = None \/ API_HASH env = None \/ PHONE_NUMBER env = None ->
  main env lib args w = (Ok tt, set_stdout w (stdout w ++ [credentials_error]))
  /\ calls (snd (main env lib args w)) = calls w
  /\ files (snd (main env lib args w)) = files w
  /\ dirs (snd (main env lib args w)) = dirs w.
Proof.
  intros Habsent.
  assert (Hcred : credentials_present env = false).
  { unfold credentials_present.
    destruct Habsent as [-> | [-> | ->]]; simpl.
    - reflexivity.
    - now rewrite andb_false_r.
    - now rewrite andb_false_r. }
  assert (Hmain : main env lib args w
                  = (Ok tt, set_stdout w (stdout w ++ [credentials_error]))).
  { unfold main. now rewrite Hcred. }
  rewrite Hmain. repeat split.
Qed.

Lemma C8_missing_credentials_abort_witness :
  main Sample.environ_without_phone (Sample.serving [Sample.report]) Sample.args
    Sample.world_with_report
  = (Ok tt, set_stdout Sample.world_with_report [credentials_error]).
Proof.
  apply (C8_missing_credentials_abort Sample.environ_without_phone
           (Sample.serving [Sample.report]) Sample.args Sample.world_with_report).
  right. right. reflexivity.
Defined.

(** C7 — at the top level, a [KeyboardInterrupt] out of [main] prints the
    cancellation notice and the process ends with status 0; any other
    exception prints ["Error: "] and its message, and the process ends with
    status 1. *)
Theorem C7_top_level_exit
    (env : Environ) (lib : Client) (args : Args) (w w' : World) :
  (main env lib args w = (Raise KeyboardInterrupt, w') ->
   script env lib args w
   = (0, set_stdout w'
           (stdout w' ++ [PyStr.newline +:+ "Operation cancelled by user."])))
  /\ (forall cls msg,
        main env lib args w = (Raise (Exception cls msg), w') ->
        script env lib args w
        = (1, set_stdout w' (stdout w' ++ [PyStr.newline +:+ "Error: " +:+ msg]))
        /\ fst (script env lib args w) <> 0).
Proof.
  unfold script. split.
  - intros ->. reflexivity.
  - intros cls msg ->. split; [reflexivity | discriminate].
Qed.

Lemma C7_top_level_exit_witness :
  fst (script Sample.environ (Sample.failing KeyboardInterrupt) Sample.args
         Sample.empty_world) = 0
  /\ fst (script Sample.environ
            (Sample.failing (Exception OtherException "no route to host"))
            Sample.args Sample.empty_world) = 1.
Proof.
  split.
  - rewrite (proj1 (C7_top_level_exit Sample.environ
                      (Sample.failing KeyboardInterrupt) Sample.args
                      Sample.empty_world
                      (set_calls Sample.empty_world [CallConnect; CallDisconnect]))
               eq_refl).
    reflexivity.
  - rewrite (proj1 (proj2 (C7_top_level_exit Sample.environ
                      (Sample.failing (Exception OtherException "no route to host"))
                      Sample.args Sample.empty_world
                      (set_calls Sample.empty_world [CallConnect; CallDisconnect]))
                      OtherException "no route to host" eq_refl)).
    reflexivity.
Defined.

(** ** Running computations *)

Lemma bind_ok {S A B} (m : M S A) (k : A -> M S B) (s s' : S) (a : A) :
  m s = (Ok a, s') -> bind m k s = k a s'.
Proof. unfold bind. now intros ->. Qed.

Lemma bind_raise {S A B} (m : M S A) (k : A -> M S B) (s s' : S) e :
  m s = (Raise e, s') -> bind m k s = (Raise e, s').
Proof. unfold bind. now intros ->. Qed.

Lemma library_ok {A} (c : Call) (a : A) (w : World) :
  library c (Ok a) w = (Ok a, set_calls w (calls w ++ [c])).
Proof. reflexivity. Qed.

Lemma library_raise {A} (c : Call) e (w : World) :
  @library A c (Raise e) w = (Raise e, set_calls w (calls w ++ [c])).
Proof. reflexivity. Qed.

(** ** Parts of the state a computation leaves alone *)

Section Preserves.

Context {S X : Type} (part : S -> X).

Lemma preserves_ret {A} (a : A) : preserves part (ret a).
Proof. intros s. reflexivity. Qed.

Lemma preserves_raise {A} e : preserves part (@raise S A e).
Proof. intros s. reflexivity. Qed.

Lemma preserves_gets {A} (f : S -> A) : preserves part (gets f).
Proof. intros s. reflexivity. Qed.

Lemma preserves_modify (f : S -> S) :
  (forall s, part (f s) = part s) -> preserves part (modify f).
Proof. intros H s. apply H. Qed.

Lemma preserves_bind {A B} (m : M S A) (k : A -> M S B) :
  preserves part m -> (forall a, preserves part (k a)) -> preserves part (bind m k).
Proof.
  intros Hm Hk s. unfold bind. specialize (Hm s).
  destruct (m s) as [[a|e] s1]; simpl in *.
  - now rewrite Hk.
  - assumption.
Qed.

Lemma preserves_try_except_Exception (body : M S unit)
    (handler : string -> M S unit) :
  preserves part body -> (forall msg, preserves part (handler msg)) ->
  preserves part (try_except_Exception body handler).
Proof.
  intros Hb Hh s. unfold try_except_Exception. specialize (Hb s).
  destruct (body s) as [[a|[|cls msg]] s1]; simpl in *; try assumption.
  now rewrite Hh.
Qed.

Lemma preserves_for_each {A} (l : list A) (body : A -> M S unit) :
  (forall x, preserves part (body x)) -> preserves part (for_each l body).
Proof.
  intros Hb. induction l as [|x l IH]; simpl.
  - apply preserves_ret.
  - apply preserves_bind; [apply Hb | intros _; apply IH].
Qed.

End Preserves.

Lemma preserves_in_world {X A} (part : World -> X) (m : M World A) :
  preserves part m -> preserves (fun f => part (world f)) (in_world m).
Proof.
  intros Hm f. unfold in_world. specialize (Hm (world f)).
  now destruct (m (world f)).
Qed.

Lemma preserves_with_counters {X} (part : World -> X) (m : M Frame unit) :
  preserves (fun f => part (world f)) m -> preserves part (with_counters m).
Proof.
  intros Hm w. unfold with_counters.
  specialize (Hm {| world := w; downloaded_count := 0; skipped_count := 0 |}).
  now destruct (m _) as [[a|e] f].
Qed.

Lemma preserves_library {X A} (part : World -> X) (c : Call) (r : Result A) :
  (forall w l, part (set_calls w l) = part w) -> preserves part (library c r).
Proof.
  intros H. unfold library. apply preserves_bind.
  - now apply preserves_modify.
  - intros _. destruct r; [apply preserves_ret | apply preserves_raise].
Qed.

Lemma preserves_print {X} (part : World -> X) (s : string) :
  (forall w l, part (set_stdout w l) = part w) -> preserves part (print s).
Proof. intros H. now apply preserves_modify. Qed.

Create HintDb preserve.

#[local] Hint Resolve preserves_ret preserves_raise preserves_gets
  preserves_in_world preserves_with_counters : preserve.

(** Splits a goal [preserves part m] along the structure of [m]. *)
Ltac preserves_step :=
  match goal with
  | |- preserves _ (bind _ _) => apply preserves_bind; [|intros ?]
  | |- preserves _ (for_each _ _) => apply preserves_for_each; intros ?
  | |- preserves _ (try_except_Exception _ _) =>
      apply preserves_try_except_Exception; [|intros ?]
  | |- preserves _ (in_world _) => apply preserves_in_world
  | |- preserves _ (with_counters _) => apply preserves_with_counters
  | |- preserves _ (ret _) => apply preserves_ret
  | |- preserves _ (raise _) => apply preserves_raise
  | |- preserves _ (gets _) => apply preserves_gets
  | |- preserves _ (library _ _) => apply preserves_library; reflexivity
  | |- preserves _ (print _) => apply preserves_print; reflexivity
  | |- preserves _ (modify _) => apply preserves_modify; reflexivity
  | |- preserves _ (match ?x with _ => _ end) => destruct x
  end.

(** *** The directories *)

Lemma open_w_dirs (p : string) : preserves dirs (open_w p).
Proof. unfold open_w. preserves_step. Qed.

Lemma write_dirs (p s : string) : preserves dirs (write p s).
Proof. unfold write. preserves_step. Qed.

Lemma path_exists_dirs (p : string) : preserves dirs (path_exists p).
Proof. unfold path_exists. preserves_step. Qed.

Lemma client_download_media_dirs (c : Client) (m : Message) (dir : string) :
  preserves dirs (client_download_media c m dir).
Proof. unfold client_download_media. repeat preserves_step. Qed.

Lemma incr_downloaded_dirs : preserves (fun f => dirs (world f)) incr_downloaded.
Proof. unfold incr_downloaded. preserves_step. Qed.

Lemma incr_skipped_dirs : preserves (fun f => dirs (world f)) incr_skipped.
Proof. unfold incr_skipped. preserves_step. Qed.

#[local] Hint Resolve open_w_dirs write_dirs path_exists_dirs
  client_download_media_dirs incr_downloaded_dirs incr_skipped_dirs : preserve.



(** ** [download_media] up to the fetch *)


Lemma download_media_resolved (self : TelegramDownloader) (id : Z)
    (media_type : MediaType) (limit offset_date : option Z)
    (contains : option string) (name : string) (w : World) :
  get_entity (client self) id = Ok name ->
  download_media self id media_type limit offset_date contains w
  = after_mkdir self name id media_type limit offset_date contains
      (resolved self name id w).
Proof.
  intros Hent. unfold download_media. rewrite Hent.
  rewrite (bind_ok _ _ _ _ _ (library_ok _ _ _)). reflexivity.
Qed.


(** The run on an empty list of messages. *)
Lemma after_mkdir_nothing (self : TelegramDownloader) (name : string) (id : Z)
    (media_type : MediaType) (limit offset_date : option Z)
    (contains : option string) (fetched : list Message) (w : World) :
  get_messages (client self) id limit offset_date (filter_type media_type)
  = Ok fetched ->
  filter_by_content contains fetched = [] ->
  after_mkdir self name id media_type limit offset_date contains w
  = (Ok tt,
     {| dirs := dirs w; files := files w;
        stdout := stdout w ++
          [PyStr.newline +:+ "Downloading " +:+ media_type_str media_type +:+
             " from " +:+ name;
           "Saving to: " +:+ entity_dir_of self name id;
           "No matching messages found."];
        stdin := stdin w;
        calls := calls w ++
          [CallGetMessages id limit offset_date (filter_type media_type)] |}).
Proof.
  intros Hget Hnone. unfold after_mkdir. rewrite Hget.
  unfold bind, print, modify, library, ret; simpl. rewrite Hnone.
  unfold set_stdout; simpl. now rewrite <- !(assoc_L (++)).
Qed.

(** C5 — when no message is left after the fetch and the content filter,
    [download_media] prints "No matching messages found." and returns; the
    files on disk are what they were (so [extracted_links.txt] is neither
    created nor truncated) and the library was asked for nothing but the
    entity and the messages. *)
Theorem C5_no_messages_no_write
    (self : TelegramDownloader) (id : Z) (media_type : MediaType)
    (limit offset_date : option Z) (contains : option string)
    (name : string) (fetched : list Message) (w : World) :
  get_entity (client self) id = Ok name ->
  get_messages (client self) id limit offset_date (filter_type media_type)
  = Ok fetched ->
  filter_by_content contains fetched = [] ->
  let run := download_media self id media_type limit offset_date contains w in
  fst run = Ok tt
  /\ files (snd run) = files w
  /\ stdout (snd run)
     = (stdout w ++
         [PyStr.newline +:+ "Downloading " +:+ media_type_str media_type +:+
            " from " +:+ name;
          "Saving to: " +:+ entity_dir_of self name id;
          "No matching messages found."])%list
  /\ calls (snd run)
     = (calls w ++
         [CallGetEntity id;
          CallGetMessages id limit offset_date (filter_type media_type)])%list.
Proof.
  intros Hent Hget Hnone run. subst run.
  rewrite (download_media_resolved _ _ _ _ _ _ name) by assumption.
  rewrite (after_mkdir_nothing _ _ _ _ _ _ _ fetched) by assumption.
  simpl. repeat split. now rewrite <- (assoc_L (++)).
Qed.

Lemma C5_no_messages_no_write_witness :
  files (snd (download_media (Sample.downloader (Sample.serving [Sample.no_text]))
                5 links None None (Some "pdf") Sample.world_with_report))
  = files Sample.world_with_report.
Proof.
  apply (C5_no_messages_no_write (Sample.downloader (Sample.serving [Sample.no_text]))
           5 links None None (Some "pdf") "chat" [Sample.no_text]
           Sample.world_with_report eq_refl eq_refl eq_refl).
Defined.



(** ** The links of a message *)

Lemma findall_truthy (t : string) (u : string) (us : list string) :
  UrlPattern.findall t = u :: us -> PyStr.truthy t = true.
Proof. destruct t; [discriminate | reflexivity]. Qed.


(** The text part of the loop body on a text with two matches. *)
Lemma handle_text_two_urls (media_type : MediaType) (f : string) (m : Message)
    (fr : Frame) (t u1 u2 : string) :
  wants_links media_type = true ->
  text m = Some t ->
  UrlPattern.findall t = [u1; u2] ->
  handle_text media_type (Some f) m fr
  = (Ok tt,
     frame_with_links fr f (u1 +:+ PyStr.newline +:+ u2 +:+ PyStr.newline) 2).
Proof.
  intros Hlinks Htext Hurls. unfold handle_text.
  rewrite Htext, Hlinks. simpl. rewrite (findall_truthy _ _ _ Hurls), Hurls.
  simpl. unfold frame_with_links, bind, in_world, write, modify, incr_downloaded,
    ret, set_files; simpl.
  rewrite lookup_insert_eq, insert_insert_eq. simpl.
  now rewrite !str_app_assoc.
Qed.

(** C6, as stated, fails: a message whose text has two distinct URLs and
    whose media is the web-page preview of the first one adds three lines to
    [extracted_links.txt] and three to the count under [--media-type links]:
    the URL of the preview, then the two URLs of the text. *)
Lemma C6_counterexample_preview :
  let fr0 := {| world := Sample.empty_world; downloaded_count := 0;
                skipped_count := 0 |} in
  let f := "downloads/chat_5/extracted_links.txt" in
  let step := process_message (Sample.serving [Sample.two_links]) links
                "downloads/chat_5" (Some f) Sample.two_links fr0 in
  let run := download_media (Sample.downloader (Sample.serving [Sample.two_links]))
               5 links (Some 100) None None Sample.empty_world in
  text Sample.two_links = Some "see http://a.org and http://b.org"
  /\ UrlPattern.findall "see http://a.org and http://b.org"
     = ["http://a.org"; "http://b.org"]
  /\ "http://a.org" <> "http://b.org"
  /\ downloaded_count (snd step) = 3%nat
  /\ downloaded_count (snd step) <> (downloaded_count fr0 + 2)%nat
  /\ files (world (snd step)) !! f
     = Some ("http://a.org" +:+ PyStr.newline +:+ "http://a.org" +:+
             PyStr.newline +:+ "http://b.org" +:+ PyStr.newline)
  /\ last (stdout (snd run))
     = Some (PyStr.newline +:+ "Downloaded/extracted 3 items from chat.").
Proof.
  cbv zeta. repeat split; try discriminate; vm_compute; reflexivity.
Qed.

(** C6, amended — when [media_type] is [links] or [all], a processed
    message whose text has two URL matches and whose media adds nothing of
    its own (the message has no media; or its media is neither a photo, nor
    a document, nor a web page with a URL; or [media_type] is [links] and the
    media is a photo or a document) appends both URLs to
    [extracted_links.txt], one per line and in order, and adds exactly 2 to
    the count. *)
Theorem C6_two_urls_two_lines
    (c : Client) (media_type : MediaType) (dir f : string) (m : Message)
    (fr : Frame) (t u1 u2 : string) :
  media_type = links \/ media_type = all ->
  text m = Some t ->
  UrlPattern.findall t = [u1; u2] ->
  media m = None
  \/ media m = Some MessageMediaOther
  \/ media m = Some (MessageMediaWebPage None)
  \/ media m = Some (MessageMediaWebPage (Some ""))
  \/ (media_type = links
      /\ (media m = Some MessageMediaPhoto
          \/ exists document, media m = Some (MessageMediaDocument document))) ->
  let step := process_message c media_type dir (Some f) m fr in
  fst step = Ok tt
  /\ files (world (snd step))
     = <[f := default "" (files (world fr) !! f) +:+
              u1 +:+ PyStr.newline +:+ u2 +:+ PyStr.newline]> (files (world fr))
  /\ downloaded_count (snd step) = (downloaded_count fr + 2)%nat
  /\ skipped_count (snd step) = skipped_count fr
  /\ calls (world (snd step)) = calls (world fr)
  /\ stdout (world (snd step)) = stdout (world fr).
Proof.
  intros Htype Htext Hurls Hinert step. subst step.
  assert (Hlinks : wants_links media_type = true)
    by (destruct Htype as [-> | ->]; reflexivity).
  assert (Hmedia : handle_media c media_type dir (Some f) m fr = (Ok tt, fr)).
  { unfold handle_media.
    destruct Hinert as [-> | [-> | [-> | [-> | [-> [-> | [document ->]]]]]]];
      reflexivity. }
  assert (Hstep : process_message c media_type dir (Some f) m fr
                  = (Ok tt, frame_with_links fr f
                              (u1 +:+ PyStr.newline +:+ u2 +:+ PyStr.newline) 2)).
  { unfold process_message, try_except_Exception.
    rewrite (bind_ok _ _ _ _ _ Hmedia).
    now rewrite (handle_text_two_urls media_type f m fr t u1 u2). }
  rewrite Hstep. simpl. repeat split. lia.
Qed.

Lemma C6_two_urls_two_lines_witness :
  downloaded_count
    (snd (process_message (Sample.serving []) links "downloads/chat_5"
            (Some "downloads/chat_5/extracted_links.txt") Sample.plain_two_links
            {| world := Sample.empty_world; downloaded_count := 0;
               skipped_count := 0 |}))
  = 2%nat.
Proof.
  apply (C6_two_urls_two_lines (Sample.serving []) links "downloads/chat_5"
           "downloads/chat_5/extracted_links.txt" Sample.plain_two_links
           {| world := Sample.empty_world; downloaded_count := 0;
              skipped_count := 0 |}
           "see http://a.org and http://b.org" "http://a.org" "http://b.org"
           (or_introl eq_refl) eq_refl eq_refl (or_introl eq_refl)).
Defined.

(** ** Files that are already there *)

(** A document whose file is already in the directory is announced as
    skipped and counted as skipped, and the library is asked to download it
    all the same: the [continue] after the announcement leaves the loop over
    the attributes, not the loop over the messages. *)
Lemma existing_document_is_downloaded
    (c : Client) (media_type : MediaType) (dir : string)
    (links_file : option string) (m : Message) (fr : Frame) (n : string) :
  wants_files media_type = true ->
  media m = Some (MessageMediaDocument (Some [DocumentAttributeFilename n])) ->
  n <> "" ->
  is_Some (files (world fr) !! joinpath dir n) ->
  let fr' := snd (handle_media c media_type dir links_file m fr) in
  calls (world fr') = (calls (world fr) ++ [CallDownloadMedia m dir])%list
  /\ skipped_count fr' = S (skipped_count fr)
  /\ stdout (world fr')
     = (stdout (world fr) ++ ["Skipping existing file: " +:+ n])%list.
Proof.
  intros Hfiles Hmedia Hn Hthere. unfold handle_media.
  rewrite Hmedia, Hfiles. simpl.
  apply truthy_spec in Hn.
  unfold check_attribute. rewrite Hn.
  cbv beta iota delta [for_each bind in_world path_exists gets].
  rewrite (bool_decide_eq_true_2 _ Hthere), orb_true_r.
  cbv beta iota delta [bind in_world print modify incr_skipped ret
                       client_download_media library gets raise snd world
                       downloaded_count skipped_count].
  destruct (download_media_ c (files _) m dir) as [p d| |e]; simpl.
  - destruct (PyStr.truthy p); simpl; repeat split.
  - repeat split.
  - repeat split.
Qed.

(** C1 — the document is there already: [a.pdf] is in the directory of the
    conversation and a message carries the document [a.pdf].  The run prints
    "Skipping existing file: a.pdf", and then asks the library for the
    document again, which saves a second copy; the document is reported both
    as one downloaded item and as one skipped file. *)
Theorem C1_existing_file_downloaded_again :
  let run := download_media (Sample.downloader (Sample.serving [Sample.report]))
               5 documents (Some 100) None None Sample.world_with_report in
  files Sample.world_with_report !! "downloads/chat_5/a.pdf" = Some "data"
  /\ fst run = Ok tt
  /\ calls (snd run)
     = [CallGetEntity 5;
        CallGetMessages 5 (Some 100) None (Some InputMessagesFilterDocument);
        CallDownloadMedia Sample.report "downloads/chat_5"]
  /\ stdout (snd run)
     = [PyStr.newline +:+ "Downloading documents from chat";
        "Saving to: downloads/chat_5";
        "Found 1 messages to process.";
        "Skipping existing file: a.pdf";
        PyStr.newline +:+ "Downloaded/extracted 1 items from chat.";
        "Skipped 1 already existing files."]
  /\ files (snd run) !! "downloads/chat_5/a.pdf (1)" = Some "data".
Proof.
  cbv zeta. repeat split; vm_compute; reflexivity.
Qed.

(** ** The date cut-off *)

(** C2 — a run with [--days 1] on a message one hour old and a
    message ten days old.  The program hands [now - 1 day] to [get_messages]
    as [offset_date] and compares no date itself.  A library that reads
    [offset_date] as the client library documents it (messages previous to
    the date) answers with the ten-day-old message only, and its link is the
    one extracted; with a library that ignores [offset_date] the ten-day-old
    message is processed as well. *)
Theorem C2_days_processes_older_messages :
  let cutoff := now Sample.environ - timedelta_days 1 in
  let history := [Sample.recent_link; Sample.old_link] in
  let run := script Sample.environ (Sample.serving_previous_to history)
               Sample.args_last_day Sample.empty_world in
  let run' := script Sample.environ (Sample.serving history)
                Sample.args_last_day Sample.empty_world in
  offset_date_of Sample.environ (args_days Sample.args_last_day) = Some cutoff
  /\ date Sample.old_link < cutoff <= date Sample.recent_link
  /\ calls (snd run)
     = [CallConnect; CallIsUserAuthorized; CallGetEntity 5;
        CallGetMessages 5 None (Some cutoff) (Some InputMessagesFilterUrl);
        CallDisconnect]
  /\ files (snd run) !! "downloads/chat_5/extracted_links.txt"
     = Some ("http://old.org" +:+ PyStr.newline)
  /\ files (snd run') !! "downloads/chat_5/extracted_links.txt"
     = Some ("http://new.org" +:+ PyStr.newline +:+ "http://old.org" +:+
             PyStr.newline).
Proof.
  cbv zeta. repeat split; vm_compute; congruence.
Qed.

(** * Further properties *)

(** ** What the URL pattern finds *)

Lemma take_drop (n : nat) (s : string) :
  UrlPattern.take n s +:+ UrlPattern.drop n s = s.
Proof.
  revert s. induction n as [|n IH]; intros [|c s]; simpl; try reflexivity.
  now rewrite str_app_cons, IH.
Qed.

Lemma take_add (k n : nat) (s : string) :
  UrlPattern.take (k + n) s
  = UrlPattern.take k s +:+ UrlPattern.take n (UrlPattern.drop k s).
Proof.
  revert s. induction k as [|k IH]; intros s; simpl.
  - reflexivity.
  - destruct s as [|c s].
    + now destruct n.
    + now rewrite str_app_cons, IH.
Qed.

Lemma chars_app (s t : string) : chars (s +:+ t) = (chars s ++ chars t)%list.
Proof.
  induction s as [|c s IH]; [reflexivity|].
  rewrite str_app_cons. simpl. now rewrite IH.
Qed.

Lemma startswith_take (p s : string) (n : nat) :
  PyStr.startswith p s = true -> (String.length p <= n)%nat ->
  UrlPattern.take n s = p +:+ UrlPattern.take (n - String.length p) (UrlPattern.drop (String.length p) s).
Proof.
  revert s n. induction p as [|a p IH]; intros s n Hp Hn; simpl in *.
  - now rewrite Nat.sub_0_r.
  - destruct s as [|b s]; [discriminate|].
    apply andb_true_iff in Hp as [Hab Hp]. apply Ascii.eqb_eq in Hab as ->.
    destruct n as [|n]; [lia|]. simpl.
    rewrite str_app_cons. f_equal. apply IH; [assumption | lia].
Qed.

(** The repetitions of the group take characters of the pattern's classes
    only: the [%hh] alternative is never reached, since [%] lies in the
    range [$-_]. *)
Lemma group_star_single (s : string) :
  Forall (fun c => UrlPattern.single c = true)
    (chars (UrlPattern.take (UrlPattern.group_star s) s)).
Proof.
  induction s as [|c s IH]; simpl; [constructor|].
  destruct (UrlPattern.single c) eqn:Hc.
  - simpl. constructor; assumption.
  - destruct (Ascii.eqb c "%") eqn:Hpc.
    + apply Ascii.eqb_eq in Hpc as ->. discriminate.
    + constructor.
Qed.

Lemma match_at_sound (s : string) (n : nat) :
  UrlPattern.match_at s = Some n ->
  (PyStr.startswith "http://" (UrlPattern.take n s) = true
   \/ PyStr.startswith "https://" (UrlPattern.take n s) = true)
  /\ (8 <= n)%nat
  /\ Forall (fun c => UrlPattern.single c = true) (chars (UrlPattern.take n s)).
Proof.
  unfold UrlPattern.match_at, UrlPattern.scheme.
  destruct (PyStr.startswith "https://" s) eqn:Hs.
  - destruct (UrlPattern.group_star (UrlPattern.drop 8 s)) as [|g] eqn:Hg;
      [discriminate|]. intros [= Hn].
    assert (Hn' : n = (8 + S g)%nat) by (rewrite <- Hn; reflexivity).
    clear Hn. subst n.
    pose proof (group_star_single (UrlPattern.drop 8 s)) as Hall.
    rewrite Hg in Hall.
    rewrite (startswith_take "https://" s (8 + S g) Hs) by (simpl; lia).
    replace (8 + S g - String.length "https://")%nat with (S g) by (simpl; lia).
    split; [|split].
    + right. apply startswith_spec. eexists. reflexivity.
    + lia.
    + rewrite chars_app. apply Forall_app. split; [|exact Hall].
      repeat constructor.
  - destruct (PyStr.startswith "http://" s) eqn:Hs'; [|discriminate].
    destruct (UrlPattern.group_star (UrlPattern.drop 7 s)) as [|g] eqn:Hg;
      [discriminate|]. intros [= Hn].
    assert (Hn' : n = (7 + S g)%nat) by (rewrite <- Hn; reflexivity).
    clear Hn. subst n.
    pose proof (group_star_single (UrlPattern.drop 7 s)) as Hall.
    rewrite Hg in Hall.
    rewrite (startswith_take "http://" s (7 + S g) Hs') by (simpl; lia).
    replace (7 + S g - String.length "http://")%nat with (S g) by (simpl; lia).
    split; [|split].
    + left. apply startswith_spec. eexists. reflexivity.
    + lia.
    + rewrite chars_app. apply Forall_app. split; [|exact Hall].
      repeat constructor.
Qed.

Lemma scan_sound (k : nat) (s u : string) :
  In u (UrlPattern.scan k s) ->
  (exists before after, s = before +:+ u +:+ after)
  /\ exists s' n, UrlPattern.match_at s' = Some n /\ u = UrlPattern.take n s'.
Proof.
  revert k. induction s as [|c s IH]; intros k; simpl; [intros []|].
  assert (Hshift : forall k', In u (UrlPattern.scan k' s) ->
            (exists before after, String c s = before +:+ u +:+ after)
            /\ exists s' n, UrlPattern.match_at s' = Some n
                            /\ u = UrlPattern.take n s').
  { intros k' Hin. destruct (IH _ Hin) as [(before & after & ->) Hm].
    split; [|exact Hm]. now exists (String c before), after. }
  destruct k as [|k]; [|apply Hshift].
  destruct (UrlPattern.match_at (String c s)) as [n|] eqn:Hm; [|apply Hshift].
  intros [<- | Hin]; [|now apply (Hshift (Nat.pred n))].
  split.
  - exists "", (UrlPattern.drop n (String c s)).
    rewrite str_app_nil_l. now rewrite take_drop.
  - now exists (String c s), n.
Qed.

(** X1 — every link [findall] extracts from a text starts with [http://] or
    [https://], occurs in the text, and is made of characters of the
    pattern's classes only; in particular it holds no space and no line
    break, so that it fills exactly one line of [extracted_links.txt]. *)
Theorem X1_findall_links_are_urls (t u : string) :
  In u (UrlPattern.findall t) ->
  (PyStr.startswith "http://" u = true \/ PyStr.startswith "https://" u = true)
  /\ PyStr.contains u t = true
  /\ Forall (fun c => UrlPattern.single c = true) (chars u)
  /\ ~ In " "%char (chars u)
  /\ ~ In (ascii_of_N 10) (chars u).
Proof.
  intros Hin. destruct (scan_sound _ _ _ Hin) as [Hocc (s' & n & Hm & ->)].
  destruct (match_at_sound _ _ Hm) as (Hscheme & _ & Hall).
  split; [exact Hscheme|]. split; [now apply contains_spec|].
  split; [exact Hall|].
  rewrite List.Forall_forall in Hall.
  split; intros Hc; apply Hall in Hc; discriminate.
Qed.

Lemma X1_findall_links_are_urls_witness :
  PyStr.contains "http://b.org" "see http://a.org and http://b.org" = true.
Proof.
  apply (X1_findall_links_are_urls "see http://a.org and http://b.org"
           "http://b.org").
  right. left. reflexivity.
Defined.

(** ** What a computation can raise *)

Section RaisesOnly.

Context {S : Type}.
Implicit Types allowed : BaseException -> Prop.

Lemma raises_only_ret {A} allowed (a : A) : raises_only allowed (@ret S A a).
Proof. intros s e. discriminate. Qed.

Lemma raises_only_gets {A} allowed (f : S -> A) : raises_only allowed (gets f).
Proof. intros s e. discriminate. Qed.

Lemma raises_only_modify allowed (f : S -> S) : raises_only allowed (modify f).
Proof. intros s e. discriminate. Qed.

Lemma raises_only_bind {A B} allowed (m : M S A) (k : A -> M S B) :
  raises_only allowed m -> (forall a, raises_only allowed (k a)) ->
  raises_only allowed (bind m k).
Proof.
  intros Hm Hk s e. unfold bind. specialize (Hm s).
  destruct (m s) as [[a|e'] s1]; simpl in *.
  - apply Hk.
  - intros [= <-]. now apply Hm.
Qed.

Lemma raises_only_for_each {A} allowed (l : list A) (body : A -> M S unit) :
  (forall x, raises_only allowed (body x)) ->
  raises_only allowed (for_each l body).
Proof.
  intros Hb. induction l as [|x l IH]; simpl.
  - apply raises_only_ret.
  - apply raises_only_bind; [apply Hb | intros _; apply IH].
Qed.

(** [except Exception] lets [KeyboardInterrupt] through and nothing else,
    when the handler itself returns. *)
Lemma raises_only_try_except_Exception (body : M S unit)
    (handler : string -> M S unit) :
  (forall msg, raises_only no_exception (handler msg)) ->
  raises_only interrupt_only (try_except_Exception body handler).
Proof.
  intros Hh s e. unfold try_except_Exception.
  destruct (body s) as [[a|[|cls msg]] s1]; simpl.
  - discriminate.
  - now intros [= <-].
  - intros He. now apply Hh in He.
Qed.

(** When the body raises nothing but [Exception]s, the statement returns. *)
Lemma returns_try_except_Exception (body : M S unit)
    (handler : string -> M S unit) :
  raises_only (fun e => e <> KeyboardInterrupt) body ->
  (forall msg, raises_only no_exception (handler msg)) ->
  raises_only no_exception (try_except_Exception body handler).
Proof.
  intros Hb Hh s e. unfold try_except_Exception. specialize (Hb s).
  destruct (body s) as [[a|[|cls msg]] s1]; simpl in *.
  - discriminate.
  - intros _. now apply (Hb KeyboardInterrupt).
  - apply Hh.
Qed.

Lemma raises_only_returns {A} (m : M S A) (s : S) :
  raises_only no_exception m -> exists a, fst (m s) = Ok a.
Proof.
  intros Hm. specialize (Hm s). destruct (m s) as [[a|e] s1]; simpl in *.
  - now exists a.
  - destruct (Hm e eq_refl).
Qed.

End RaisesOnly.

Lemma raises_only_in_world {A} allowed (m : M World A) :
  raises_only allowed m -> raises_only allowed (in_world m).
Proof.
  intros Hm f e. unfold in_world. specialize (Hm (world f) e).
  now destruct (m (world f)).
Qed.

Lemma raises_only_with_counters allowed (m : M Frame unit) :
  raises_only allowed m -> raises_only allowed (with_counters m).
Proof.
  intros Hm w e. unfold with_counters.
  specialize (Hm {| world := w; downloaded_count := 0; skipped_count := 0 |} e).
  destruct (m _) as [[a|e'] f]; simpl in *; [discriminate|].
  intros [= <-]. now apply Hm.
Qed.

Lemma raises_only_library {A} (allowed : BaseException -> Prop) (c : Call)
    (r : Result A) :
  (forall e, r = Raise e -> allowed e) -> raises_only allowed (library c r).
Proof.
  intros Hr w e. unfold library, bind, modify, ret, raise.
  destruct r as [a|e']; simpl; [discriminate|].
  intros [= <-]. now apply Hr.
Qed.

Lemma raises_only_print allowed (s : string) : raises_only allowed (print s).
Proof. apply raises_only_modify. Qed.

(** Splits a goal [raises_only allowed m] along the structure of [m]. *)
Ltac raises_step :=
  match goal with
  | |- raises_only _ (bind _ _) => apply raises_only_bind; [|intros ?]
  | |- raises_only _ (for_each _ _) => apply raises_only_for_each; intros ?
  | |- raises_only _ (in_world _) => apply raises_only_in_world
  | |- raises_only _ (with_counters _) => apply raises_only_with_counters
  | |- raises_only _ (ret _) => apply raises_only_ret
  | |- raises_only _ (gets _) => apply raises_only_gets
  | |- raises_only _ (print _) => apply raises_only_print
  | |- raises_only _ (modify _) => apply raises_only_modify
  | |- raises_only _ (library _ (Ok _)) =>
      apply raises_only_library; discriminate
  | |- raises_only _ (match ?x with _ => _ end) => destruct x eqn:?
  end.

Lemma raises_only_download (allowed : BaseException -> Prop) (c : Client)
    (m : Message) (dir : string) :
  (forall fs e, download_media_ c fs m dir = DownloadFailed e -> allowed e) ->
  raises_only allowed (client_download_media c m dir).
Proof.
  intros Hc w e. unfold client_download_media, bind, gets. simpl.
  destruct (download_media_ c (files w) m dir) as [p d| |e'] eqn:Hd; simpl;
    try discriminate.
  intros [= <-]. now apply (Hc (files w)).
Qed.

Lemma check_attribute_returns (dir : string) (attr : DocumentAttribute) :
  raises_only no_exception (check_attribute dir attr).
Proof.
  unfold check_attribute, path_exists, incr_skipped. repeat raises_step.
Qed.

Lemma handle_text_returns (media_type : MediaType) (links_file : option string)
    (m : Message) :
  raises_only no_exception (handle_text media_type links_file m).
Proof.
  unfold handle_text, write, incr_downloaded. repeat raises_step.
Qed.

(** The loop body raises what the download of the message raises. *)
Lemma loop_body_raises (allowed : BaseException -> Prop) (c : Client)
    (media_type : MediaType) (dir : string) (links_file : option string)
    (m : Message) :
  (forall fs e, download_media_ c fs m dir = DownloadFailed e -> allowed e) ->
  raises_only allowed
    (handle_media c media_type dir links_file m ;;
     handle_text media_type links_file m).
Proof.
  intros Hc.
  assert (Hret : forall A (k : M Frame A),
             raises_only no_exception k -> raises_only allowed k).
  { intros A k Hk s e He. destruct (Hk s e He). }
  apply raises_only_bind; [|intros _; apply Hret, handle_text_returns].
  unfold handle_media, write, incr_downloaded.
  repeat first [ apply raises_only_download; exact Hc
               | apply Hret, check_attribute_returns
               | raises_step ].
Qed.

Lemma error_handler_returns (msg : string) :
  raises_only no_exception
    (in_world (print ("Error processing message: " +:+ msg))).
Proof. repeat raises_step. Qed.

(** ** Errors while a message is processed *)

Lemma process_message_interrupt_only (c : Client) (media_type : MediaType)
    (dir : string) (links_file : option string) (m : Message) :
  raises_only interrupt_only (process_message c media_type dir links_file m).
Proof.
  unfold process_message. apply raises_only_try_except_Exception.
  apply error_handler_returns.
Qed.

Lemma process_message_returns (c : Client) (media_type : MediaType)
    (dir : string) (links_file : option string) (m : Message) :
  downloads_uninterrupted c ->
  raises_only no_exception (process_message c media_type dir links_file m).
Proof.
  intros Hc. unfold process_message. apply returns_try_except_Exception.
  - apply loop_body_raises. intros fs e He ->. exact (Hc _ _ _ He).
  - apply error_handler_returns.
Qed.

Lemma after_mkdir_raises (allowed : BaseException -> Prop)
    (self : TelegramDownloader) (name : string) (id : Z)
    (media_type : MediaType) (limit offset_date : option Z)
    (contains : option string) (fetched : list Message) :
  get_messages (client self) id limit offset_date (filter_type media_type)
  = Ok fetched ->
  (forall links_file m,
     raises_only allowed
       (process_message (client self) media_type
          (entity_dir_of self name id) links_file m)) ->
  raises_only allowed
    (after_mkdir self name id media_type limit offset_date contains).
Proof.
  intros Hget Hbody. unfold after_mkdir. rewrite Hget. unfold open_w.
  repeat first [apply Hbody | raises_step].
Qed.

(** X2 — once the conversation is resolved and its messages are fetched, no
    error of a single message ends [download_media]: the run returns, or it
    is ended by a [KeyboardInterrupt]; when no download is interrupted it
    returns, whatever the downloads raise. *)
Theorem X2_message_errors_do_not_end_the_run
    (self : TelegramDownloader) (id : Z) (media_type : MediaType)
    (limit offset_date : option Z) (contains : option string)
    (name : string) (fetched : list Message) (w : World) :
  get_entity (client self) id = Ok name ->
  get_messages (client self) id limit offset_date (filter_type media_type)
  = Ok fetched ->
  let run := download_media self id media_type limit offset_date contains w in
  (fst run = Ok tt \/ fst run = Raise KeyboardInterrupt)
  /\ (downloads_uninterrupted (client self) -> fst run = Ok tt).
Proof.
  intros Hent Hget run. subst run.
  rewrite (download_media_resolved _ _ _ _ _ _ name) by assumption.
  split.
  - pose proof (after_mkdir_raises interrupt_only self name id media_type limit
                  offset_date contains fetched Hget
                  (fun lf m => process_message_interrupt_only _ _ _ lf m)
                  (resolved self name id w)) as H.
    destruct (fst (after_mkdir _ _ _ _ _ _ _ _)) as [[]|e]; [now left|].
    right. now rewrite (H e eq_refl).
  - intros Hc.
    destruct (raises_only_returns _ (resolved self name id w)
                (after_mkdir_raises no_exception self name id media_type limit
                   offset_date contains fetched Hget
                   (fun lf m => process_message_returns _ _ _ lf m Hc)))
      as [[] H].
    exact H.
Qed.

Lemma X2_message_errors_do_not_end_the_run_witness :
  fst (download_media
         (Sample.downloader
            (Sample.refusing_downloads (Exception OtherException "timed out")
               [Sample.no_text; Sample.report]))
         5 all (Some 100) None None Sample.empty_world)
  = Ok tt.
Proof.
  apply (X2_message_errors_do_not_end_the_run
           (Sample.downloader
              (Sample.refusing_downloads (Exception OtherException "timed out")
                 [Sample.no_text; Sample.report]))
           5 all (Some 100) None None "chat" [Sample.no_text; Sample.report]
           Sample.empty_world eq_refl eq_refl).
  intros fs m dir. discriminate.
Defined.

(** The frame after the library was asked for [m] and an error was printed. *)
Lemma failed_download_step (c : Client) (media_type : MediaType) (dir : string)
    (links_file : option string) (m : Message) (fr : Frame)
    (cls : ExceptionClass) (msg : string) :
  wants_files media_type = true ->
  media m = Some MessageMediaPhoto ->
  download_media_ c (files (world fr)) m dir
  = DownloadFailed (Exception cls msg) ->
  process_message c media_type dir links_file m fr
  = (Ok tt,
     {| world :=
          {| dirs := dirs (world fr); files := files (world fr);
             stdout := stdout (world fr) ++ ["Error processing message: " +:+ msg];
             stdin := stdin (world fr);
             calls := calls (world fr) ++ [CallDownloadMedia m dir] |};
        downloaded_count := downloaded_count fr;
        skipped_count := skipped_count fr |}).
Proof.
  intros Hfiles Hmedia Hfail.
  unfold process_message, try_except_Exception, handle_media.
  rewrite Hmedia, Hfiles. simpl.
  cbv beta iota delta [for_each bind in_world ret client_download_media gets
                       library modify raise].
  simpl. rewrite Hfail. reflexivity.
Qed.

(** X3 — when the download of a photo raises an exception, the message is
    given up as a whole: the error is printed, both counters and all files
    stay as they were, and the links in the text of the message are not
    extracted, also under [--media-type all]. *)
Theorem X3_failed_download_gives_up_the_message
    (c : Client) (media_type : MediaType) (dir : string)
    (links_file : option string) (m : Message) (fr : Frame)
    (cls : ExceptionClass) (msg : string) :
  wants_files media_type = true ->
  media m = Some MessageMediaPhoto ->
  download_media_ c (files (world fr)) m dir
  = DownloadFailed (Exception cls msg) ->
  let step := process_message c media_type dir links_file m fr in
  fst step = Ok tt
  /\ downloaded_count (snd step) = downloaded_count fr
  /\ skipped_count (snd step) = skipped_count fr
  /\ files (world (snd step)) = files (world fr)
  /\ stdout (world (snd step))
     = (stdout (world fr) ++ ["Error processing message: " +:+ msg])%list.
Proof.
  intros Hfiles Hmedia Hfail step. subst step.
  rewrite (failed_download_step c media_type dir links_file m fr cls msg)
    by assumption.
  repeat split.
Qed.

Lemma X3_failed_download_gives_up_the_message_witness :
  files (world (snd (process_message
                       (Sample.refusing_downloads
                          (Exception OtherException "timed out") [])
                       all "downloads/chat_5"
                       (Some "downloads/chat_5/extracted_links.txt")
                       Sample.photo_with_link
                       (Sample.frame_on Sample.world_with_report))))
  = files Sample.world_with_report.
Proof.
  apply (X3_failed_download_gives_up_the_message
           (Sample.refusing_downloads (Exception OtherException "timed out") [])
           all "downloads/chat_5" (Some "downloads/chat_5/extracted_links.txt")
           Sample.photo_with_link (Sample.frame_on Sample.world_with_report)
           OtherException "timed out" eq_refl eq_refl eq_refl).
Defined.

(** ** Photos *)

Lemma in_world_skipped {X A} (part : World -> X) (m : M World A) :
  preserves part m ->
  preserves (fun f => (part (world f), skipped_count f)) (in_world m).
Proof.
  intros Hm f. unfold in_world. specialize (Hm (world f)).
  destruct (m (world f)); simpl in *. now rewrite Hm.
Qed.

Lemma handle_text_calls_skipped (media_type : MediaType)
    (links_file : option string) (m : Message) :
  preserves (fun f => (calls (world f), skipped_count f))
    (handle_text media_type links_file m).
Proof.
  unfold handle_text, incr_downloaded.
  repeat first [ apply in_world_skipped; unfold write | preserves_step ].
Qed.

Lemma handle_media_photo (c : Client) (media_type : MediaType) (dir : string)
    (links_file : option string) (m : Message) (fr : Frame) :
  wants_files media_type = true ->
  media m = Some MessageMediaPhoto ->
  calls (world (snd (handle_media c media_type dir links_file m fr)))
  = (calls (world fr) ++ [CallDownloadMedia m dir])%list
  /\ skipped_count (snd (handle_media c media_type dir links_file m fr))
     = skipped_count fr
  /\ stdout (world (snd (handle_media c media_type dir links_file m fr)))
     = stdout (world fr).
Proof.
  intros Hfiles Hmedia. unfold handle_media. rewrite Hmedia, Hfiles. simpl.
  cbv beta iota delta [for_each bind in_world ret client_download_media gets
                       library modify raise incr_downloaded].
  simpl.
  destruct (download_media_ c (files (world fr)) m dir) as [p d| |e]; simpl.
  - destruct (PyStr.truthy p); simpl; repeat split.
  - repeat split.
  - repeat split.
Qed.

(** X4 — a photo is never taken for an existing file: under every media
    type that downloads files, processing a photo message asks the library
    for the photo exactly once and leaves the skipped count as it was,
    whatever is in the directory. *)
Theorem X4_photos_are_always_downloaded
    (c : Client) (media_type : MediaType) (dir : string)
    (links_file : option string) (m : Message) (fr : Frame) :
  wants_files media_type = true ->
  media m = Some MessageMediaPhoto ->
  let step := process_message c media_type dir links_file m fr in
  calls (world (snd step)) = (calls (world fr) ++ [CallDownloadMedia m dir])%list
  /\ skipped_count (snd step) = skipped_count fr.
Proof.
  intros Hfiles Hmedia step. subst step.
  destruct (handle_media_photo c media_type dir links_file m fr Hfiles Hmedia)
    as (Hcalls & Hskip & _).
  unfold process_message, try_except_Exception, bind.
  destruct (handle_media c media_type dir links_file m fr) as [[[]|e] fr1];
    simpl in *.
  - pose proof (handle_text_calls_skipped media_type links_file m fr1) as Ht.
    destruct (handle_text media_type links_file m fr1)
      as [[[]|[|cls msg]] fr2]; simpl in *;
      injection Ht as Hc Hs; rewrite Hc, Hs; auto.
  - destruct e as [|cls msg]; simpl; auto.
Qed.

Lemma X4_photos_are_always_downloaded_witness :
  calls (world (snd (process_message (Sample.serving []) photos
                       "downloads/chat_5" None Sample.no_text
                       (Sample.frame_on Sample.world_with_report))))
  = [CallDownloadMedia Sample.no_text "downloads/chat_5"].
Proof.
  apply (X4_photos_are_always_downloaded (Sample.serving []) photos
           "downloads/chat_5" None Sample.no_text
           (Sample.frame_on Sample.world_with_report) eq_refl eq_refl).
Defined.

(** ** The links file under [--media-type links] *)

Lemma unlines_app (a b : list string) :
  unlines (a ++ b) = unlines a +:+ unlines b.
Proof.
  induction a as [|u a IH]; simpl; [reflexivity|].
  now rewrite IH, !str_app_assoc.
Qed.

Lemma frame_with_links_twice (fr : Frame) (f l1 l2 : string) (n1 n2 : nat) :
  frame_with_links (frame_with_links fr f l1 n1) f l2 n2
  = frame_with_links fr f (l1 +:+ l2) (n2 + n1).
Proof.
  unfold frame_with_links, set_files; simpl.
  rewrite lookup_insert_eq, insert_insert_eq. simpl.
  now rewrite str_app_assoc, Nat.add_assoc.
Qed.

Lemma frame_with_links_nothing (fr : Frame) (f : string) :
  is_Some (files (world fr) !! f) -> frame_with_links fr f "" 0 = fr.
Proof.
  intros [content Hf]. destruct fr as [[d fs o i c] dc sc].
  unfold frame_with_links, set_files; simpl in *.
  rewrite Hf. simpl. rewrite str_app_nil_r. now rewrite (insert_id _ _ _ Hf).
Qed.

Lemma frame_with_links_there (fr : Frame) (f lines : string) (n : nat) :
  is_Some (files (world (frame_with_links fr f lines n)) !! f).
Proof. unfold frame_with_links; simpl. rewrite lookup_insert_eq. eauto. Qed.

(** Writing a list of links, one per line, and counting each. *)
Lemma write_links (f : string) (urls : list string) (fr : Frame) :
  is_Some (files (world fr) !! f) ->
  for_each urls
    (fun url => in_world (write f (url +:+ PyStr.newline)) ;; incr_downloaded) fr
  = (Ok tt, frame_with_links fr f (unlines urls) (length urls)).
Proof.
  revert fr. induction urls as [|u urls IH]; intros fr Hf; simpl.
  - now rewrite frame_with_links_nothing.
  - assert (Hstep : (in_world (write f (u +:+ PyStr.newline)) ;; incr_downloaded) fr
                    = (Ok tt, frame_with_links fr f (u +:+ PyStr.newline) 1)).
    { reflexivity. }
    rewrite (bind_ok _ _ _ _ _ Hstep).
    rewrite IH by apply frame_with_links_there.
    rewrite frame_with_links_twice. do 2 f_equal.
    + now rewrite str_app_assoc.
    + lia.
Qed.

(** A message under [links]: its links are written and counted, nothing is
    downloaded and nothing is raised. *)
Lemma process_message_links (c : Client) (dir f : string) (m : Message)
    (fr : Frame) :
  is_Some (files (world fr) !! f) ->
  process_message c links dir (Some f) m fr
  = (Ok tt,
     frame_with_links fr f (unlines (message_links m)) (length (message_links m))).
Proof.
  intros Hf.
  assert (Hmedia : exists part,
             handle_media c links dir (Some f) m fr
             = (Ok tt, frame_with_links fr f (unlines part) (length part))
             /\ message_links m
                = (part ++ UrlPattern.findall (default "" (text m)))%list).
  { unfold handle_media, message_links.
    destruct (media m) as [[| doc | [u|] |]|]; simpl;
      try (exists []; split; [now rewrite frame_with_links_nothing | reflexivity]).
    destruct (PyStr.truthy u); simpl.
    - exists [u]. split; [|reflexivity]. simpl. rewrite str_app_nil_r.
      reflexivity.
    - exists []. split; [now rewrite frame_with_links_nothing | reflexivity]. }
  destruct Hmedia as (part & Hm & ->).
  assert (Htext : forall fr', is_Some (files (world fr') !! f) ->
             handle_text links (Some f) m fr'
             = (Ok tt, frame_with_links fr' f
                         (unlines (UrlPattern.findall (default "" (text m))))
                         (length (UrlPattern.findall (default "" (text m)))))).
  { intros fr' Hf'. unfold handle_text.
    destruct (text m) as [t|]; simpl.
    - destruct (PyStr.truthy t) eqn:Ht; simpl.
      + now apply write_links.
      + destruct t; [|discriminate]. now rewrite frame_with_links_nothing.
    - now rewrite frame_with_links_nothing. }
  unfold process_message, try_except_Exception.
  rewrite (bind_ok _ _ _ _ _ Hm).
  rewrite Htext by apply frame_with_links_there.
  rewrite frame_with_links_twice, unlines_app, length_app.
  do 2 f_equal. lia.
Qed.

Lemma process_messages_links (c : Client) (dir f : string)
    (messages : list Message) (fr : Frame) :
  is_Some (files (world fr) !! f) ->
  for_each messages (process_message c links dir (Some f)) fr
  = (Ok tt,
     frame_with_links fr f (unlines (concat (map message_links messages)))
       (length (concat (map message_links messages)))).
Proof.
  revert fr. induction messages as [|m messages IH]; intros fr Hf; simpl.
  - now rewrite frame_with_links_nothing.
  - rewrite (bind_ok _ _ _ _ _ (process_message_links c dir f m fr Hf)).
    rewrite IH by apply frame_with_links_there.
    rewrite frame_with_links_twice, unlines_app, length_app.
    do 2 f_equal. lia.
Qed.

(** X5 — under [--media-type links], when at least one message is left to
    process, [extracted_links.txt] ends up holding exactly the links of the
    processed messages, in message order and one per line (for each message
    the URL of its web-page preview, then the URLs found in its text);
    whatever the file held before is gone, and the reported count is the
    number of lines. *)
Theorem X5_links_mode_writes_the_links
    (self : TelegramDownloader) (id : Z) (limit offset_date : option Z)
    (contains : option string) (name : string) (fetched : list Message)
    (w : World) :
  get_entity (client self) id = Ok name ->
  get_messages (client self) id limit offset_date (Some InputMessagesFilterUrl)
  = Ok fetched ->
  filter_by_content contains fetched <> [] ->
  let messages := filter_by_content contains fetched in
  let found := concat (map message_links messages) in
  let run := download_media self id links limit offset_date contains w in
  fst run = Ok tt
  /\ files (snd run)
     = <[links_path (entity_dir_of self name id) := unlines found]> (files w)
  /\ stdout (snd run)
     = (stdout w ++
          [PyStr.newline +:+ "Downloading links from " +:+ name;
           "Saving to: " +:+ entity_dir_of self name id;
           "Found " +:+ PyStr.of_int (Z.of_nat (length messages)) +:+
           " messages to process.";
           PyStr.newline +:+ "Downloaded/extracted " +:+
           PyStr.of_int (Z.of_nat (length found)) +:+ " items from " +:+
           name +:+ "."])%list.
Proof.
  intros Hent Hget Hsome messages found run. subst run found messages.
  rewrite (download_media_resolved _ _ _ _ _ _ name) by assumption.
  unfold after_mkdir. simpl filter_type. rewrite Hget.
  destruct (filter_by_content contains fetched) as [|m0 l] eqn:Hmsgs;
    [contradiction|].
  cbv beta iota zeta delta [bind print modify library ret open_w with_counters
                            wants_links].
  rewrite !Hmsgs.
  rewrite process_messages_links
    by (simpl; rewrite lookup_insert_eq; eauto).
  unfold frame_with_links, set_files, set_stdout, set_calls; simpl.
  rewrite lookup_insert_eq, insert_insert_eq. simpl.
  rewrite str_app_nil_l, Nat.add_0_r.
  repeat split. now rewrite <- !(assoc_L (++)).
Qed.

Lemma X5_links_mode_writes_the_links_witness :
  files (snd (download_media
                (Sample.downloader
                   (Sample.serving [Sample.two_links; Sample.old_link]))
                5 links None None None Sample.world_with_old_links))
  !! "downloads/chat_5/extracted_links.txt"
  = Some ("http://a.org" +:+ PyStr.newline +:+ "http://a.org" +:+ PyStr.newline
          +:+ "http://b.org" +:+ PyStr.newline +:+ "http://old.org" +:+
          PyStr.newline).
Proof.
  assert (Hsome : filter_by_content None [Sample.two_links; Sample.old_link]
                  <> []) by discriminate.
  rewrite (proj1 (proj2 (X5_links_mode_writes_the_links
                           (Sample.downloader
                              (Sample.serving [Sample.two_links; Sample.old_link]))
                           5 None None None "chat"
                           [Sample.two_links; Sample.old_link]
                           Sample.world_with_old_links eq_refl eq_refl Hsome))).
  apply lookup_insert_eq.
Defined.

Lemma bind_print {B} (line : string) (k : unit -> M World B) (w : World) :
  bind (print line) k w = k tt (set_stdout w (stdout w ++ [line])).
Proof. reflexivity. Qed.

Lemma process_message_links_calls (c : Client) (dir : string)
    (links_file : option string) (m : Message) :
  preserves (fun f => calls (world f)) (process_message c links dir links_file m).
Proof.
  unfold process_message, handle_media, handle_text, write, incr_downloaded.
  simpl wants_files. simpl wants_links.
  repeat preserves_step.
Qed.

(** X6 — under [--media-type links] nothing is ever downloaded: once the
    conversation is resolved, the library is asked for the entity and for the
    messages and for nothing else, however the run ends. *)
Theorem X6_links_mode_downloads_nothing
    (self : TelegramDownloader) (id : Z) (limit offset_date : option Z)
    (contains : option string) (name : string) (w : World) :
  get_entity (client self) id = Ok name ->
  calls (snd (download_media self id links limit offset_date contains w))
  = (calls w ++
       [CallGetEntity id;
        CallGetMessages id limit offset_date (Some InputMessagesFilterUrl)])%list.
Proof.
  intros Hent.
  rewrite (download_media_resolved _ _ _ _ _ _ name) by assumption.
  unfold after_mkdir. simpl filter_type.
  rewrite !bind_print.
  destruct (get_messages (client self) id limit offset_date
              (Some InputMessagesFilterUrl)) as [fetched|e].
  - rewrite (bind_ok _ _ _ _ _ (library_ok _ _ _)).
    match goal with
    | |- calls (snd (?k ?s)) = _ =>
        assert (Hk : preserves calls k)
    end.
    { unfold open_w.
      repeat first [apply process_message_links_calls | preserves_step]. }
    rewrite Hk. simpl. now rewrite <- (assoc_L (++)).
  - rewrite (bind_raise _ _ _ _ _ (library_raise _ _ _)).
    simpl. now rewrite <- (assoc_L (++)).
Qed.

Lemma X6_links_mode_downloads_nothing_witness :
  calls (snd (download_media
                (Sample.downloader (Sample.serving [Sample.report; Sample.no_text]))
                5 links None None None Sample.empty_world))
  = [CallGetEntity 5; CallGetMessages 5 None None (Some InputMessagesFilterUrl)].
Proof.
  apply (X6_links_mode_downloads_nothing
           (Sample.downloader (Sample.serving [Sample.report; Sample.no_text]))
           5 None None None "chat" Sample.empty_world eq_refl).
Defined.

(** ** The files a run leaves alone *)

Section OtherFiles.

Variable p : string.

(** The content of the file at [p], if there is one. *)
Let at_p (w : World) : option string := files w !! p.

Lemma open_w_other (f : string) : f <> p -> preserves at_p (open_w f).
Proof.
  intros Hne. unfold open_w. apply preserves_modify. intros w.
  unfold at_p; simpl. now rewrite lookup_insert_ne.
Qed.

Lemma write_other (f s : string) : f <> p -> preserves at_p (write f s).
Proof.
  intros Hne. unfold write. apply preserves_modify. intros w.
  unfold at_p; simpl. now rewrite lookup_insert_ne.
Qed.

Lemma client_download_media_other (c : Client) (m : Message) (dir : string) :
  (forall fs data, download_media_ c fs m dir <> Saved p data) ->
  preserves at_p (client_download_media c m dir).
Proof.
  intros Hc w. unfold client_download_media, bind, gets, library, modify, ret,
    raise; simpl.
  destruct (download_media_ c (files w) m dir) as [path data| |e] eqn:Hd;
    simpl; try reflexivity.
  unfold at_p; simpl. apply lookup_insert_ne. intros ->. exact (Hc _ _ Hd).
Qed.

Lemma process_message_other (c : Client) (media_type : MediaType)
    (dir : string) (links_file : option string) (m : Message) :
  links_file <> Some p ->
  (forall fs m dir data, download_media_ c fs m dir <> Saved p data) ->
  preserves (fun f => at_p (world f))
    (process_message c media_type dir links_file m).
Proof.
  intros Hlf Hc.
  assert (Hw : forall f s, links_file = Some f ->
                 preserves (fun fr => at_p (world fr)) (in_world (write f s))).
  { intros f s ->. apply preserves_in_world, write_other. congruence. }
  unfold process_message, handle_media, handle_text, check_attribute,
    path_exists, incr_downloaded, incr_skipped.
  repeat first
    [ apply Hw; reflexivity
    | apply preserves_in_world, client_download_media_other; intros; apply Hc
    | preserves_step ].
Qed.

(** The rule for [bind] that remembers where the bound value comes from. *)
Lemma preserves_bind_result {S X A B} (part : S -> X) (m : M S A)
    (k : A -> M S B) :
  preserves part m ->
  (forall a, (exists s, fst (m s) = Ok a) -> preserves part (k a)) ->
  preserves part (bind m k).
Proof.
  intros Hm Hk s. unfold bind. specialize (Hm s).
  destruct (m s) as [[a|e] s1] eqn:Hms; simpl in *.
  - rewrite Hk; [assumption|]. exists s. now rewrite Hms.
  - assumption.
Qed.

Lemma after_mkdir_other (self : TelegramDownloader) (name : string) (id : Z)
    (media_type : MediaType) (limit offset_date : option Z)
    (contains : option string) :
  (wants_links media_type = true -> p <> links_path (entity_dir_of self name id)) ->
  (forall fs m dir data, download_media_ (client self) fs m dir <> Saved p data) ->
  preserves at_p (after_mkdir self name id media_type limit offset_date contains).
Proof.
  intros Hne Hc. unfold after_mkdir.
  repeat first
    [ match goal with
      | |- preserves _ (bind (if wants_links _ then _ else _) _) =>
          apply preserves_bind_result;
          [ destruct (wants_links media_type);
            repeat first [ apply open_w_other; specialize (Hne eq_refl); congruence
                         | preserves_step ]
          | let lf := fresh "links_file" in
            let s := fresh "s" in
            let Hs := fresh "Hs" in
            intros lf [s Hs];
            assert (lf <> Some p)
              by (destruct (wants_links media_type); simpl in Hs;
                  injection Hs as <-;
                  [specialize (Hne eq_refl); congruence | discriminate]) ]
      end
    | apply process_message_other; [assumption | exact Hc]
    | preserves_step ].
Qed.

(** X7 — a run of [download_media] changes no file but the files the
    library saves and, under the media types that extract links, its links
    file: a file at any other path has after the run the content it had
    before, however the run ends.  Under [photos], [documents] and [gifs]
    this holds for [extracted_links.txt] too. *)
Theorem X7_other_files_are_left_alone
    (self : TelegramDownloader) (id : Z) (media_type : MediaType)
    (limit offset_date : option Z) (contains : option string) (w : World) :
  (forall name, get_entity (client self) id = Ok name ->
                wants_links media_type = true ->
                p <> links_path (entity_dir_of self name id)) ->
  (forall fs m dir data, download_media_ (client self) fs m dir <> Saved p data) ->
  files (snd (download_media self id media_type limit offset_date contains w)) !! p
  = files w !! p.
Proof.
  intros Hne Hc.
  destruct (get_entity (client self) id) as [name|e] eqn:Hent.
  - rewrite (download_media_resolved _ _ _ _ _ _ name) by assumption.
    exact (after_mkdir_other self name id media_type limit offset_date
             contains (Hne name eq_refl) Hc (resolved self name id w)).
  - unfold download_media. rewrite Hent.
    now rewrite (bind_raise _ _ _ _ _ (library_raise _ _ _)).
Qed.

End OtherFiles.

Lemma X7_other_files_are_left_alone_witness :
  files (snd (download_media
                (Sample.downloader
                   (Sample.refusing_downloads (Exception OtherException "timed out")
                      [Sample.two_links; Sample.no_text]))
                5 all None None None Sample.world_with_report))
  !! "downloads/chat_5/a.pdf"
  = Some "data".
Proof.
  rewrite (X7_other_files_are_left_alone "downloads/chat_5/a.pdf"
             (Sample.downloader
                (Sample.refusing_downloads (Exception OtherException "timed out")
                   [Sample.two_links; Sample.no_text]))
             5 all None None None Sample.world_with_report).
  - reflexivity.
  - intros name [= <-] _. discriminate.
  - intros fs m dir data. discriminate.
Defined.

(** ** Signing in *)

Lemma connect_authorized (self : TelegramDownloader) (w : World) :
  connect_ (client self) = Ok tt ->
  is_user_authorized (client self) = Ok true ->
  connect self w
  = (Ok tt,
     {| dirs := dirs w; files := files w;
        stdout := stdout w ++ ["Successfully authenticated with Telegram!"];
        stdin := stdin w;
        calls := calls w ++ [CallConnect; CallIsUserAuthorized] |}).
Proof.
  intros Hc Ha. unfold connect. rewrite Hc, Ha.
  unfold bind, library, modify, ret, print, set_calls, set_stdout; simpl.
  now rewrite <- (assoc_L (++)).
Qed.

Lemma connect_refused (self : TelegramDownloader) (w : World) (e : BaseException) :
  connect_ (client self) = Raise e ->
  connect self w = (Raise e, set_calls w (calls w ++ [CallConnect])).
Proof. intros Hc. unfold connect. now rewrite Hc. Qed.

(** X8 — with an authorized session, [connect] asks for no code, reads
    nothing from the terminal and signs in with nothing: it calls [connect]
    and [is_user_authorized] and reports success. *)
Theorem X8_connect_with_a_session (self : TelegramDownloader) (w : World) :
  connect_ (client self) = Ok tt ->
  is_user_authorized (client self) = Ok true ->
  connect self w
  = (Ok tt,
     {| dirs := dirs w; files := files w;
        stdout := stdout w ++ ["Successfully authenticated with Telegram!"];
        stdin := stdin w;
        calls := calls w ++ [CallConnect; CallIsUserAuthorized] |}).
Proof. apply connect_authorized. Qed.

Lemma X8_connect_with_a_session_witness :
  stdin (snd (connect (Sample.downloader (Sample.serving []))
                (Sample.typing ["12345"])))
  = ["12345"].
Proof.
  now rewrite (X8_connect_with_a_session (Sample.downloader (Sample.serving []))
                 (Sample.typing ["12345"]) eq_refl eq_refl).
Defined.

(** X9 — two-step verification: without a session, when the sign-in with
    the code typed on the terminal raises [SessionPasswordNeededError],
    [connect] asks for the password, signs in with it and reports success;
    the code and the password are the first two lines read. *)
Theorem X9_connect_two_step (self : TelegramDownloader) (w : World)
    (code password : string) (rest : list string) (msg : string) :
  connect_ (client self) = Ok tt ->
  is_user_authorized (client self) = Ok false ->
  send_code_request (client self) (phone self) = Ok tt ->
  stdin w = code :: password :: rest ->
  sign_in (client self) (phone self) code
  = Raise (Exception SessionPasswordNeededError msg) ->
  sign_in_password (client self) password = Ok tt ->
  connect self w
  = (Ok tt,
     {| dirs := dirs w; files := files w;
        stdout := stdout w ++
          ["A verification code has been sent to " +:+ phone self;
           "Enter the verification code: ";
           "Enter your two-step verification password: ";
           "Successfully authenticated with Telegram!"];
        stdin := rest;
        calls := calls w ++
          [CallConnect; CallIsUserAuthorized; CallSendCodeRequest (phone self);
           CallSignIn (phone self) code; CallSignInPassword password] |}).
Proof.
  intros Hc Ha Hsend Hin Hsign Hpw. unfold connect. rewrite Hc, Ha, Hsend.
  unfold try_except_SessionPasswordNeeded, input, bind, library, modify, ret,
    print, gets, raise, set_calls, set_stdout, set_stdin; simpl.
  rewrite Hin. simpl. rewrite Hsign. simpl. rewrite Hpw.
  unfold modify; simpl. now rewrite <- !(assoc_L (++)).
Qed.

Lemma X9_connect_two_step_witness :
  fst (connect (Sample.downloader Sample.asking_for_password)
         (Sample.typing ["12345"; "secret"]))
  = Ok tt.
Proof.
  now rewrite (X9_connect_two_step (Sample.downloader Sample.asking_for_password)
                 (Sample.typing ["12345"; "secret"]) "12345" "secret" []
                 "Two-steps verification is enabled"
                 eq_refl eq_refl eq_refl eq_refl eq_refl eq_refl).
Defined.

(** X10 — when the sign-in with the code raises anything else than
    [SessionPasswordNeededError], [connect] raises it: no password is asked
    for or read, and success is not reported. *)
Theorem X10_connect_refused_code (self : TelegramDownloader) (w : World)
    (code : string) (rest : list string) (e : BaseException) :
  connect_ (client self) = Ok tt ->
  is_user_authorized (client self) = Ok false ->
  send_code_request (client self) (phone self) = Ok tt ->
  stdin w = code :: rest ->
  sign_in (client self) (phone self) code = Raise e ->
  (forall msg, e <> Exception SessionPasswordNeededError msg) ->
  connect self w
  = (Raise e,
     {| dirs := dirs w; files := files w;
        stdout := stdout w ++
          ["A verification code has been sent to " +:+ phone self;
           "Enter the verification code: "];
        stdin := rest;
        calls := calls w ++
          [CallConnect; CallIsUserAuthorized; CallSendCodeRequest (phone self);
           CallSignIn (phone self) code] |}).
Proof.
  intros Hc Ha Hsend Hin Hsign Hother. unfold connect. rewrite Hc, Ha, Hsend.
  unfold try_except_SessionPasswordNeeded, input, bind, library, modify, ret,
    print, gets, raise, set_calls, set_stdout, set_stdin; simpl.
  rewrite Hin. simpl. rewrite Hsign. simpl.
  destruct e as [|[|] msg]; simpl.
  - now rewrite <- !(assoc_L (++)).
  - destruct (Hother msg eq_refl).
  - now rewrite <- !(assoc_L (++)).
Qed.

Lemma X10_connect_refused_code_witness :
  stdin (snd (connect (Sample.downloader Sample.refusing_code)
                (Sample.typing ["00000"; "secret"])))
  = ["secret"].
Proof.
  rewrite (X10_connect_refused_code (Sample.downloader Sample.refusing_code)
             (Sample.typing ["00000"; "secret"]) "00000" ["secret"]
             (Exception OtherException "The phone code entered was invalid")
             eq_refl eq_refl eq_refl eq_refl eq_refl).
  - reflexivity.
  - intros msg. discriminate.
Defined.

(** ** The table of conversations *)

Lemma print_rows_spec (start : nat) (l : list DialogInfo) (w : World) :
  print_rows start l w
  = (Ok tt,
     set_stdout w (stdout w ++ imap (fun i d => dialog_row (start + i) d) l)).
Proof.
  revert start w. induction l as [|d l IH]; intros start w; simpl.
  - rewrite (right_id_L [] (++)). now destruct w.
  - rewrite bind_print, IH. unfold set_stdout; simpl.
    rewrite <- (assoc_L (++)). simpl. rewrite Nat.add_0_r.
    do 4 f_equal. apply imap_ext. intros i x _. simpl. f_equal. lia.
Qed.

Lemma list_dialogs_ok (self : TelegramDownloader) (w : World) (ds : list Dialog) :
  get_dialogs_ (client self) = Ok ds ->
  list_dialogs self w
  = (Ok tt,
     {| dirs := dirs w; files := files w;
        stdout := stdout w ++ table_head ++
                  imap (fun i d => dialog_row (S i) (dialog_info d)) ds;
        stdin := stdin w;
        calls := calls w ++ [CallGetDialogs] |}).
Proof.
  intros Hds. unfold list_dialogs, get_dialogs. rewrite Hds.
  unfold bind at 1. unfold bind at 1. rewrite library_ok.
  unfold ret at 1. rewrite !bind_print, print_rows_spec.
  unfold set_stdout, set_calls, table_head; simpl.
  rewrite <- !(assoc_L (++)). simpl. do 3 f_equal.
  rewrite imap_fmap. reflexivity.
Qed.

(** X11 — [list_dialogs] prints the four lines of the table head and then
    one row per conversation, in the order the library lists them and
    numbered from 1, each with the id, the type and the name of the
    conversation; a conversation flagged as a group is typed [Group] also
    when it is flagged as a channel.  When the library fails to list the
    conversations, nothing is printed. *)
Theorem X11_list_dialogs_table (self : TelegramDownloader) (w : World) :
  (forall ds, get_dialogs_ (client self) = Ok ds ->
     list_dialogs self w
     = (Ok tt,
        {| dirs := dirs w; files := files w;
           stdout := stdout w ++ table_head ++
                     imap (fun i d => dialog_row (S i) (dialog_info d)) ds;
           stdin := stdin w;
           calls := calls w ++ [CallGetDialogs] |})
     /\ forall d, In d ds -> is_group d = true ->
                  info_type (dialog_info d) = "Group")
  /\ (forall e, get_dialogs_ (client self) = Raise e ->
        list_dialogs self w = (Raise e, set_calls w (calls w ++ [CallGetDialogs]))).
Proof.
  split.
  - intros ds Hds. split.
    + now apply list_dialogs_ok.
    + intros d _ Hg. unfold dialog_info, dialog_type; simpl. now rewrite Hg.
  - intros e He. unfold list_dialogs, get_dialogs. rewrite He. reflexivity.
Qed.

Lemma X11_list_dialogs_table_witness :
  stdout (snd (list_dialogs
                 (Sample.downloader (Sample.listing [Sample.supergroup; Sample.broadcast]))
                 Sample.empty_world))
  = (table_head ++
     [dialog_row 1 (dialog_info Sample.supergroup);
      dialog_row 2 (dialog_info Sample.broadcast)])%list
  /\ info_type (dialog_info Sample.supergroup) = "Group".
Proof.
  destruct (proj1 (X11_list_dialogs_table
                     (Sample.downloader
                        (Sample.listing [Sample.supergroup; Sample.broadcast]))
                     Sample.empty_world)
              [Sample.supergroup; Sample.broadcast] eq_refl) as [Hrun Htype].
  split.
  - rewrite Hrun. reflexivity.
  - apply Htype; [left; reflexivity | reflexivity].
Defined.

(** ** The driver, branch by branch *)

(** X12 — once the credentials are there, [main] always ends by
    disconnecting: whichever branch runs and however it ends, the last call
    made to the library is [disconnect]; and an exception raised by
    [disconnect] is the one [main] raises, in place of the outcome of the
    run. *)
Theorem X12_main_always_disconnects
    (env : Environ) (lib : Client) (args : Args) (w : World) :
  credentials_present env = true ->
  last (calls (snd (main env lib args w))) = Some CallDisconnect
  /\ (forall e, disconnect lib = Raise e -> fst (main env lib args w) = Raise e).
Proof.
  intros Hcred. unfold main. rewrite Hcred. simpl.
  unfold try_finally, close.
  match goal with |- context [let (r, s') := ?body w in _] =>
    destruct (body w) as [r w1] end.
  simpl client. destruct (disconnect lib) as [[]|e'].
  - rewrite library_ok. simpl. split; [apply last_snoc | discriminate].
  - rewrite library_raise. simpl. split; [apply last_snoc | now intros e [= ->]].
Qed.

Lemma X12_main_always_disconnects_witness :
  last (calls (snd (main Sample.environ
                      (Sample.failing (Exception OtherException "no route to host"))
                      Sample.args Sample.empty_world)))
  = Some CallDisconnect.
Proof.
  apply (X12_main_always_disconnects Sample.environ
           (Sample.failing (Exception OtherException "no route to host"))
           Sample.args Sample.empty_world eq_refl).
Defined.

(** X13 — when connecting fails, nothing is listed or downloaded whatever
    the command line asks for: the script disconnects, prints the error and
    exits with status 1. *)
Theorem X13_failed_connection
    (env : Environ) (lib : Client) (args : Args) (w : World)
    (cls : ExceptionClass) (msg : string) :
  credentials_present env = true ->
  connect_ lib = Raise (Exception cls msg) ->
  disconnect lib = Ok tt ->
  script env lib args w
  = (1,
     {| dirs := dirs w; files := files w;
        stdout := stdout w ++ [PyStr.newline +:+ "Error: " +:+ msg];
        stdin := stdin w;
        calls := calls w ++ [CallConnect; CallDisconnect] |}).
Proof.
  intros Hcred Hc Hd. unfold script, main. rewrite Hcred. simpl.
  unfold try_finally, close. simpl client. rewrite Hd.
  rewrite (bind_raise _ _ _ _ _
             (connect_refused (downloader_of env lib args) w _ Hc)).
  rewrite library_ok. unfold print, modify, set_stdout, set_calls; simpl.
  now rewrite <- (assoc_L (++)).
Qed.

Lemma X13_failed_connection_witness :
  fst (script Sample.environ
         (Sample.failing (Exception OtherException "no route to host"))
         Sample.args_list_only Sample.empty_world)
  = 1.
Proof.
  now rewrite (X13_failed_connection Sample.environ
                 (Sample.failing (Exception OtherException "no route to host"))
                 Sample.args_list_only Sample.empty_world OtherException
                 "no route to host" eq_refl eq_refl eq_refl).
Defined.

(** X14 — without [--list] and [--download] the usage text is printed, but
    only after the program has connected to the service: the library is
    asked to connect, for the authorization and to disconnect. *)
Theorem X14_no_action_prints_help
    (env : Environ) (lib : Client) (args : Args) (w : World) :
  credentials_present env = true ->
  args_list args = false ->
  args_download args = false ->
  connect_ lib = Ok tt ->
  is_user_authorized lib = Ok true ->
  disconnect lib = Ok tt ->
  main env lib args w
  = (Ok tt,
     {| dirs := dirs w; files := files w;
        stdout := stdout w ++
          ["Successfully authenticated with Telegram!"; help_text];
        stdin := stdin w;
        calls := calls w ++ [CallConnect; CallIsUserAuthorized; CallDisconnect] |}).
Proof.
  intros Hcred Hl Hd Hc Ha Hdis. unfold main. rewrite Hcred, Hl, Hd. simpl.
  unfold try_finally, close. simpl client. rewrite Hdis.
  rewrite (bind_ok _ _ _ _ _
             (connect_authorized (downloader_of env lib args) w Hc Ha)).
  unfold print, modify, library, bind, ret, set_stdout, set_calls; simpl.
  now rewrite <- !(assoc_L (++)).
Qed.

Lemma X14_no_action_prints_help_witness :
  calls (snd (main Sample.environ (Sample.serving [Sample.report])
                Sample.args_none Sample.empty_world))
  = [CallConnect; CallIsUserAuthorized; CallDisconnect].
Proof.
  now rewrite (X14_no_action_prints_help Sample.environ
                 (Sample.serving [Sample.report]) Sample.args_none
                 Sample.empty_world eq_refl eq_refl eq_refl eq_refl eq_refl
                 eq_refl).
Defined.

(** X15 — [--download] without an entity id, or with the id 0, downloads
    nothing: the run prints that [--entity-id] is required, lists the
    conversations instead and returns; the library is never asked for an
    entity, for messages or for a file. *)
Theorem X15_download_needs_an_entity_id
    (env : Environ) (lib : Client) (args : Args) (w : World) (ds : list Dialog) :
  credentials_present env = true ->
  args_list args = false ->
  args_download args = true ->
  args_entity_id args = None \/ args_entity_id args = Some 0 ->
  connect_ lib = Ok tt ->
  is_user_authorized lib = Ok true ->
  get_dialogs_ lib = Ok ds ->
  disconnect lib = Ok tt ->
  main env lib args w
  = (Ok tt,
     {| dirs := dirs w; files := files w;
        stdout := stdout w ++
          ["Successfully authenticated with Telegram!";
           "Error: --entity-id is required for downloading."] ++
          table_head ++ imap (fun i d => dialog_row (S i) (dialog_info d)) ds;
        stdin := stdin w;
        calls := calls w ++
          [CallConnect; CallIsUserAuthorized; CallGetDialogs; CallDisconnect] |}).
Proof.
  intros Hcred Hl Hd Hid Hc Ha Hds Hdis. unfold main. rewrite Hcred, Hl, Hd.
  assert (Hmiss : entity_id_missing (args_entity_id args) = true)
    by (destruct Hid as [-> | ->]; reflexivity).
  rewrite Hmiss. simpl.
  unfold try_finally, close. simpl client. rewrite Hdis.
  rewrite (bind_ok _ _ _ _ _
             (connect_authorized (downloader_of env lib args) w Hc Ha)).
  rewrite bind_print.
  rewrite (list_dialogs_ok (downloader_of env lib args) _ ds Hds).
  rewrite library_ok. unfold set_stdout, set_calls; simpl.
  now rewrite <- !(assoc_L (++)).
Qed.

Lemma X15_download_needs_an_entity_id_witness :
  calls (snd (main Sample.environ (Sample.serving [Sample.report])
                Sample.args_entity_zero Sample.empty_world))
  = [CallConnect; CallIsUserAuthorized; CallGetDialogs; CallDisconnect].
Proof.
  rewrite (X15_download_needs_an_entity_id Sample.environ
             (Sample.serving [Sample.report]) Sample.args_entity_zero
             Sample.empty_world [] eq_refl eq_refl eq_refl (or_intror eq_refl)
             eq_refl eq_refl eq_refl eq_refl).
  reflexivity.
Defined.

(** X16 — [--list] wins over [--download]: with [--list] on the command
    line the run is the listing run, whatever the other options are. *)
Theorem X16_list_wins_over_download
    (env : Environ) (lib : Client) (args args' : Args) (w : World) :
  args_list args = true ->
  args_list args' = true ->
  main env lib args w = main env lib args' w.
Proof.
  intros Hl Hl'. unfold main. rewrite Hl, Hl'. reflexivity.
Qed.

Lemma X16_list_wins_over_download_witness :
  main Sample.environ (Sample.serving [Sample.report])
    Sample.args_list_and_download Sample.empty_world
  = main Sample.environ (Sample.serving [Sample.report])
      Sample.args_list_only Sample.empty_world.
Proof.
  apply (X16_list_wins_over_download Sample.environ
           (Sample.serving [Sample.report]) Sample.args_list_and_download
           Sample.args_list_only Sample.empty_world eq_refl eq_refl).
Defined.

(** X17 — [--days 0] sets no cut-off: the download runs with no
    [offset_date], exactly as without [--days]. *)
Theorem X17_days_zero_is_no_cutoff
    (env : Environ) (lib : Client) (args args' : Args) (w : World) :
  args_days args = Some 0 ->
  args_days args' = None ->
  args_list args' = args_list args ->
  args_download args' = args_download args ->
  args_entity_id args' = args_entity_id args ->
  args_media_type args' = args_media_type args ->
  args_limit args' = args_limit args ->
  args_contains args' = args_contains args ->
  args_download_dir args' = args_download_dir args ->
  offset_date_of env (args_days args) = None
  /\ main env lib args w = main env lib args' w.
Proof.
  intros Hd Hd' Hl Hdl Hid Hmt Hlim Hc Hdir.
  split; [now rewrite Hd|].
  unfold main, downloader_of. now rewrite Hd, Hd', Hl, Hdl, Hid, Hmt, Hlim, Hc, Hdir.
Qed.

Lemma X17_days_zero_is_no_cutoff_witness :
  main Sample.environ (Sample.serving [Sample.report]) Sample.args_days_zero
    Sample.empty_world
  = main Sample.environ (Sample.serving [Sample.report]) Sample.args
      Sample.empty_world.
Proof.
  apply (X17_days_zero_is_no_cutoff Sample.environ (Sample.serving [Sample.report])
           Sample.args_days_zero Sample.args Sample.empty_world
           eq_refl eq_refl eq_refl eq_refl eq_refl eq_refl eq_refl eq_refl eq_refl).
Defined.

(** ** Errors before the first message *)

(** X18 — when the conversation cannot be resolved, [download_media] raises
    the error of [get_entity] before it touches anything: no directory is
    made, no file is written and nothing is printed. *)
Theorem X18_unresolved_conversation
    (self : TelegramDownloader) (id : Z) (media_type : MediaType)
    (limit offset_date : option Z) (contains : option string)
    (e : BaseException) (w : World) :
  get_entity (client self) id = Raise e ->
  download_media self id media_type limit offset_date contains w
  = (Raise e,
     {| dirs := dirs w; files := files w; stdout := stdout w; stdin := stdin w;
        calls := calls w ++ [CallGetEntity id] |}).
Proof.
  intros Hent. unfold download_media. rewrite Hent.
  now rewrite (bind_raise _ _ _ _ _ (library_raise _ _ _)).
Qed.

Lemma X18_unresolved_conversation_witness :
  dirs (snd (download_media (Sample.downloader (Sample.listing []))
               5 all (Some 100) None None Sample.empty_world))
  = ∅.
Proof.
  now rewrite (X18_unresolved_conversation (Sample.downloader (Sample.listing []))
                 5 all (Some 100) None None
                 (Exception OtherException "Cannot find any entity")
                 Sample.empty_world eq_refl).
Defined.

(** X19 — when the fetch of the messages fails, [download_media] raises the
    error of [get_messages]: the directory of the conversation is made and
    the two opening lines are printed, but no file is created or changed and
    nothing is downloaded. *)
Theorem X19_failed_fetch
    (self : TelegramDownloader) (id : Z) (media_type : MediaType)
    (limit offset_date : option Z) (contains : option string)
    (name : string) (e : BaseException) (w : World) :
  get_entity (client self) id = Ok name ->
  get_messages (client self) id limit offset_date (filter_type media_type)
  = Raise e ->
  download_media self id media_type limit offset_date contains w
  = (Raise e,
     {| dirs := dirs w ∪ {[entity_dir_of self name id]}
                  ∪ list_to_set (parents (entity_dir_of self name id));
        files := files w;
        stdout := stdout w ++
          [PyStr.newline +:+ "Downloading " +:+ media_type_str media_type +:+
             " from " +:+ name;
           "Saving to: " +:+ entity_dir_of self name id];
        stdin := stdin w;
        calls := calls w ++
          [CallGetEntity id;
           CallGetMessages id limit offset_date (filter_type media_type)] |}).
Proof.
  intros Hent Hget.
  rewrite (download_media_resolved _ _ _ _ _ _ name) by assumption.
  unfold after_mkdir. rewrite Hget, !bind_print.
  rewrite (bind_raise _ _ _ _ _ (library_raise _ _ _)).
  unfold resolved, set_stdout, set_calls, set_dirs; simpl.
  now rewrite <- !(assoc_L (++)).
Qed.

Lemma X19_failed_fetch_witness :
  files (snd (download_media (Sample.downloader Sample.losing_connection)
                5 links None None None Sample.world_with_old_links))
  = files Sample.world_with_old_links.
Proof.
  now rewrite (X19_failed_fetch (Sample.downloader Sample.losing_connection)
                 5 links None None None "chat"
                 (Exception OtherException "Connection lost")
                 Sample.world_with_old_links eq_refl eq_refl).
Defined.

(** ** The case of the search string *)



(** ** New documents *)

Lemma check_attributes_absent (dir : string) (attrs : list DocumentAttribute)
    (fr : Frame) :
  (forall n, In (DocumentAttributeFilename n) attrs ->
             fst (path_exists (joinpath dir n) (world fr)) = Ok false) ->
  for_each attrs (check_attribute dir) fr = (Ok tt, fr).
Proof.
  induction attrs as [|attr attrs IH]; intros Habsent; simpl; [reflexivity|].
  assert (Hstep : check_attribute dir attr fr = (Ok tt, fr)).
  { destruct attr as [n|]; simpl; [|reflexivity].
    destruct (PyStr.truthy n); [|reflexivity].
    specialize (Habsent n (or_introl eq_refl)).
    unfold bind, in_world. unfold path_exists, gets in *. simpl in *.
    injection Habsent as ->. now destruct fr. }
  rewrite (bind_ok _ _ _ _ _ Hstep). apply IH.
  intros n Hin. apply Habsent. now right.
Qed.

(** X21 — a document none of whose file names is in the directory yet is
    downloaded once and counted as downloaded, not as skipped: the file the
    library saves is on disk afterwards and nothing is printed. *)
Theorem X21_new_document_is_downloaded
    (c : Client) (media_type : MediaType) (dir : string)
    (links_file : option string) (m : Message) (fr : Frame)
    (attrs : list DocumentAttribute) (path data : string) :
  wants_files media_type = true ->
  media m = Some (MessageMediaDocument (Some attrs)) ->
  text m = None ->
  (forall n, In (DocumentAttributeFilename n) attrs ->
             fst (path_exists (joinpath dir n) (world fr)) = Ok false) ->
  download_media_ c (files (world fr)) m dir = Saved path data ->
  path <> "" ->
  process_message c media_type dir links_file m fr
  = (Ok tt,
     {| world :=
          {| dirs := dirs (world fr);
             files := <[path := data]> (files (world fr));
             stdout := stdout (world fr);
             stdin := stdin (world fr);
             calls := calls (world fr) ++ [CallDownloadMedia m dir] |};
        downloaded_count := S (downloaded_count fr);
        skipped_count := skipped_count fr |}).
Proof.
  intros Hfiles Hmedia Htext Habsent Hsaved Hpath.
  apply truthy_spec in Hpath.
  unfold process_message, try_except_Exception, handle_media, handle_text.
  rewrite Hmedia, Hfiles, Htext. simpl.
  unfold bind at 1. unfold bind at 1.
  rewrite (check_attributes_absent dir attrs fr Habsent).
  cbv beta iota delta [bind in_world ret client_download_media gets library
                       modify raise incr_downloaded].
  simpl. rewrite Hsaved. simpl. rewrite Hpath. simpl.
  now destruct links_file.
Qed.

Lemma X21_new_document_is_downloaded_witness :
  downloaded_count
    (snd (process_message (Sample.serving []) documents "downloads/chat_5" None
            Sample.report (Sample.frame_on Sample.empty_world)))
  = 1%nat
  /\ skipped_count
       (snd (process_message (Sample.serving []) documents "downloads/chat_5" None
               Sample.report (Sample.frame_on Sample.empty_world)))
     = 0%nat.
Proof.
  rewrite (X21_new_document_is_downloaded (Sample.serving []) documents
             "downloads/chat_5" None Sample.report
             (Sample.frame_on Sample.empty_world)
             [DocumentAttributeFilename "a.pdf"] "downloads/chat_5/a.pdf" "data"
             eq_refl eq_refl eq_refl).
  - split; reflexivity.
  - intros n [[= <-]|[]]. reflexivity.
  - reflexivity.
  - discriminate.
Defined.
